(** * SignTranslation: script detection, smart OCR language selection and
      transliteration source resolution (app.py)

    A shallow embedding of the three core functions of [app.py]:

    - [detect_script_with_confidence]  (lines 72-92)
    - [ocr_image_with_smart_lang]      (lines 95-136)
    - [perform_transliteration]        (lines 139-150)

    together with the two Flask handlers that consume them
    ([api_detect], [api_ocr]).

    Python values are modelled as follows.
    - [str] is a sequence of Unicode code points: [list Z].
    - [int] is [Z]; [len] is the number of code points.
    - a [dict] keeps its keys in insertion order, and
      [max(counts.items(), ...)] depends on that order, so a dict is an
      association list with unique keys.
    - [top_count / total_matched] is Python's true division of two ints;
      it is modelled by the exact rational [Q].
    - a call that may raise returns an [outcome]; calls to the external
      engines are recorded in a trace, so that "no second pass was
      attempted" is a statement about the trace. *)

From Stdlib Require Import ZArith List String Ascii Bool QArith Lia Permutation.
Import ListNotations.

Local Open Scope Z_scope.

(* ================================================================== *)
(** ** Python strings *)
(* ================================================================== *)

Module PyStr.

Definition codepoint := Z.
Definition str := list codepoint.

(** An ASCII literal of the source, as a sequence of code points. *)
Definition lit (s : string) : str :=
  map (fun a => Z.of_N (N_of_ascii a)) (list_ascii_of_string s).

Definition len {A} (s : list A) : Z := Z.of_nat (List.length s).

Fixpoint str_eqb (a b : str) : bool :=
  match a, b with
  | [], [] => true
  | x :: a', y :: b' => (x =? y) && str_eqb a' b'
  | _, _ => false
  end.

(** Truth value of a sequence: [if found:], [if not text:]. *)
Definition truthy {A} (s : list A) : bool :=
  match s with [] => false | _ :: _ => true end.

(** The characters [str.strip()] removes when called without argument:
    CPython's [_PyUnicode_IsWhitespace]. *)
Definition is_space (c : codepoint) : bool :=
  ((0x0009 <=? c) && (c <=? 0x000D))
  || ((0x001C <=? c) && (c <=? 0x0020))
  || (c =? 0x0085) || (c =? 0x00A0) || (c =? 0x1680)
  || ((0x2000 <=? c) && (c <=? 0x200A))
  || (c =? 0x2028) || (c =? 0x2029) || (c =? 0x202F) || (c =? 0x205F)
  || (c =? 0x3000).

Fixpoint lstrip (s : str) : str :=
  match s with
  | [] => []
  | c :: r => if is_space c then lstrip r else s
  end.

Definition rstrip (s : str) : str := rev (lstrip (rev s)).

Definition strip (s : str) : str := rstrip (lstrip s).

(** A string is trimmed at the front when it does not start with
    whitespace. *)
Definition clean_front (s : str) : Prop :=
  match s with [] => True | c :: _ => is_space c = false end.

End PyStr.
Export PyStr.

(* ================================================================== *)
(** ** Insertion-ordered dictionaries *)
(* ================================================================== *)

Module PyDict.

Definition dict (V : Type) := list (str * V).

Section Ops.
Context {V : Type}.

(** [d.get(k, default)] *)
Fixpoint get (d : dict V) (k : str) (default : V) : V :=
  match d with
  | [] => default
  | (k', v) :: r => if str_eqb k' k then v else get r k default
  end.

(** [d[k] = v]: an existing key keeps its position, a new key goes last. *)
Fixpoint set (d : dict V) (k : str) (v : V) : dict V :=
  match d with
  | [] => [(k, v)]
  | (k', v') :: r =>
      if str_eqb k' k then (k', v) :: r else (k', v') :: set r k v
  end.

Definition keys (d : dict V) : list str := map fst d.
Definition values (d : dict V) : list V := map snd d.
End Ops.

(** [sum(d.values())] *)
Definition sum_values (d : dict Z) : Z := fold_right Z.add 0 (values d).

(** [max(d.items(), key=lambda kv: kv[1])] on a non-empty dict whose first
    item is [kv]: the running maximum is replaced only by a strictly larger
    key, so the first maximal item is returned. *)
Definition max_step (best kv : str * Z) : str * Z :=
  if snd best <? snd kv then kv else best.

Definition max_item (kv : str * Z) (rest : dict Z) : str * Z :=
  fold_left max_step rest kv.

End PyDict.

(* ================================================================== *)
(** ** Exceptions and traced computations *)
(* ================================================================== *)

Module Eff.

(** A raised exception: its class and [str(e)]. Everything raised here is a
    subclass of [Exception], which is what [except Exception] catches. *)
Inductive exn_class := ValueError | RuntimeError | EngineError.

Record exn := mkExn { exn_cls : exn_class; exn_str : str }.

Inductive outcome (A : Type) :=
| Return (a : A)
| Raise (e : exn).
Arguments Return {A} a.
Arguments Raise {A} e.

(** A computation that has run: the calls it made to an external engine, in
    order, and how it ended. *)
Record run (E A : Type) := mkRun { trace : list E; result : outcome A }.
Arguments mkRun {E A} trace result.
Arguments trace {E A} r.
Arguments result {E A} r.

Section Monad.
Context {E : Type}.

Definition ret {A} (a : A) : run E A := mkRun [] (Return a).

Definition raise {A} (e : exn) : run E A := mkRun [] (Raise e).

Definition bind {A B} (m : run E A) (k : A -> run E B) : run E B :=
  match result m with
  | Return a => let r := k a in mkRun (trace m ++ trace r) (result r)
  | Raise e => mkRun (trace m) (Raise e)
  end.

(** Lifting of a pure value that may be an exception. *)
Definition lift {A} (o : outcome A) : run E A := mkRun [] o.

(** One call to the external engine: logged, then its outcome. *)
Definition call {A} (ev : E) (o : outcome A) : run E A := mkRun [ev] o.

(** [try: m  except Exception as e: ...] with the handler left to the
    caller: the exception becomes a value. *)
Definition attempt {A} (m : run E A) : run E (outcome A) :=
  mkRun (trace m) (Return (result m)).
End Monad.

Declare Scope eff_scope.
Delimit Scope eff_scope with eff.
Notation "x <- m ;; k" := (bind m (fun x => k))
  (at level 61, m at next level, right associativity) : eff_scope.
Notation "' pat <- m ;; k" := (bind m (fun x => match x with pat => k end))
  (at level 61, pat pattern, m at next level, right associativity) : eff_scope.

End Eff.
Export Eff.

(* ================================================================== *)
(** ** ScriptClassifier: [detect_script_with_confidence] *)
(* ================================================================== *)

Module Classifier.
Import PyDict.

(** A compiled character class [[lo1-hi1 lo2-hi2 ...]]. *)
Definition pattern := list (Z * Z).

Definition matches (p : pattern) (c : codepoint) : bool :=
  existsb (fun r => (fst r <=? c) && (c <=? snd r)) p.

(** [pattern.findall(text)] for a one-character class: the matching
    characters, left to right. *)
Definition findall (p : pattern) (text : str) : str := filter (matches p) text.

Definition ISO : str := lit "ISO".

Definition UNICODE_RANGES : list (pattern * str) :=
  [ ([(0x0900, 0x097F)], lit "Devanagari");
    ([(0x0980, 0x09FF)], lit "Bengali");
    ([(0x0A00, 0x0A7F)], lit "Gurmukhi");
    ([(0x0A80, 0x0AFF)], lit "Gujarati");
    ([(0x0B00, 0x0B7F)], lit "Oriya");
    ([(0x0B80, 0x0BFF)], lit "Tamil");
    ([(0x0C00, 0x0C7F)], lit "Telugu");
    ([(0x0C80, 0x0CFF)], lit "Kannada");
    ([(0x0D00, 0x0D7F)], lit "Malayalam");
    ([(0x0D80, 0x0DFF)], lit "Sinhala");
    ([(0x41, 0x5A); (0x61, 0x7A)], ISO) ].

(** What the function returns: a 4-tuple on the two early returns (lines 80
    and 89), a 5-tuple on the last line (92). *)
Inductive detection :=
| Tuple4 (script : str) (top_count total_matched : Z) (breakdown : dict Z)
| Tuple5 (script : str) (top_count total_matched : Z) (breakdown : dict Z)
         (confidence : Q).

(** Body of the [for pattern, scriptname in UNICODE_RANGES] loop, on the
    state [(counts, total_matched)]. *)
Definition count_step (text : str) (st : dict Z * Z) (entry : pattern * str)
  : dict Z * Z :=
  let found := findall (fst entry) text in
  if truthy found
  then (set (fst st) (snd entry) (get (fst st) (snd entry) 0 + len found),
        snd st + len found)
  else st.

Definition count_loop (text : str) (ranges : list (pattern * str))
  (st : dict Z * Z) : dict Z * Z :=
  fold_left (count_step text) ranges st.

Definition divide (a b : Z) : Q := Qmake a (Z.to_pos b).

Definition detect_script_with_confidence (text : str) : detection :=
  if negb (truthy text) then Tuple4 ISO 0 0 []
  else
    let st := count_loop text UNICODE_RANGES ([], 0) in
    let counts := fst st in
    let total_matched := snd st in
    match counts with
    | [] => Tuple4 ISO 0 0 []
    | kv :: rest =>
        let top := max_item kv rest in
        let confidence :=
          if 0 <? total_matched then divide (snd top) total_matched else 0%Q in
        Tuple5 (fst top) (snd top) total_matched counts confidence
    end.

(** Projections shared by both shapes. *)
Definition script_of (d : detection) : str :=
  match d with Tuple4 s _ _ _ | Tuple5 s _ _ _ _ => s end.
Definition top_count_of (d : detection) : Z :=
  match d with Tuple4 _ c _ _ | Tuple5 _ c _ _ _ => c end.
Definition total_matched_of (d : detection) : Z :=
  match d with Tuple4 _ _ t _ | Tuple5 _ _ t _ _ => t end.
Definition breakdown_of (d : detection) : dict Z :=
  match d with Tuple4 _ _ _ b | Tuple5 _ _ _ b _ => b end.
(** The fifth component exists only in the 5-tuple. *)
Definition confidence_of (d : detection) : option Q :=
  match d with Tuple4 _ _ _ _ => None | Tuple5 _ _ _ _ q => Some q end.

(** [a, b, c, d, e = detection]: unpacking into five targets. *)
Definition unpack_error : exn :=
  mkExn ValueError (lit "not enough values to unpack (expected 5, got 4)").

Definition unpack5 (d : detection) : outcome (str * Z * Z * dict Z * Q) :=
  match d with
  | Tuple5 s c t b q => Return (s, c, t, b, q)
  | Tuple4 _ _ _ _ => Raise unpack_error
  end.

(** Number of characters of [text] in the class [p]. *)
Definition count (p : pattern) (text : str) : Z := len (findall p text).

(** The contribution of one catalog entry to [counts]: nothing when
    [findall] finds nothing, one item otherwise. *)
Definition item (text : str) (entry : pattern * str) : dict Z :=
  if truthy (findall (fst entry) text)
  then [(snd entry, count (fst entry) text)]
  else [].

(** The items of all entries, in catalog order. *)
Definition tally (text : str) (ranges : list (pattern * str)) : dict Z :=
  flat_map (item text) ranges.

(** [text] has no character of any catalog range. *)
Definition unrecognised (text : str) : Prop :=
  forall c e, In c text -> In e UNICODE_RANGES -> matches (fst e) c = false.

(** The same, as a test that can be run. *)
Definition recognised (c : codepoint) : bool :=
  existsb (fun e => matches (fst e) c) UNICODE_RANGES.

Definition unrecognisedb (text : str) : bool :=
  forallb (fun c => negb (recognised c)) text.

End Classifier.
Export Classifier.

(* ================================================================== *)
(** ** JSON responses of the Flask handlers *)
(* ================================================================== *)

Module Http.
Import PyDict.

Inductive body :=
| ErrorBody (error : str)
| DetectBody (script : str) (top_count total_matched : Z)
             (breakdown : dict Z) (confidence : Q)
| OcrBody (text used_lang detected_script : str)
          (breakdown : dict Z) (confidence : Q).

(** [jsonify(...), status]; a bare [jsonify(...)] is status 200. *)
Record response := Jsonify { status : Z; payload : body }.

(** [api_detect] (lines 458-463), from the decoded ["text"] field on. *)
Definition api_detect (text : str) : run unit response :=
  (' (detected, top_count, total_matched, breakdown, confidence) <-
     lift (unpack5 (detect_script_with_confidence text)) ;;
   ret (Jsonify 200
          (DetectBody detected top_count total_matched breakdown confidence))
  )%eff.

End Http.
Export Http.

(* ================================================================== *)
(** ** SmartOCRSelector: [ocr_image_with_smart_lang] and [api_ocr] *)
(* ================================================================== *)

Module Ocr.
Import PyDict.

Definition eng : str := lit "eng".

Definition TESS_LANG_SUGGEST : dict str :=
  [ (lit "Devanagari", lit "hin");
    (lit "Bengali", lit "ben");
    (lit "Gurmukhi", lit "pan");
    (lit "Gujarati", lit "guj");
    (lit "Oriya", lit "ori");
    (lit "Tamil", lit "tam");
    (lit "Telugu", lit "tel");
    (lit "Kannada", lit "kan");
    (lit "Malayalam", lit "mal");
    (lit "Sinhala", lit "sin");
    (ISO, eng) ].

(** The dict the function returns: [{"ok": True, ...}] or
    [{"ok": False, "error": ...}]. *)
Inductive ocr_dict :=
| OcrOk (text used_lang detected_script : str) (breakdown : dict Z)
| OcrFail (error : str).

(** The [if / elif / else] of lines 120-128 on the two trimmed texts:
    [(used, final_text)]. *)
Definition select (suggested_lang txt0 txt1 : str) : str * str :=
  if len txt0 <? len txt1 then (suggested_lang, txt1)
  else if negb (str_eqb (strip txt1) []) && str_eqb (strip txt0) []
       then (suggested_lang, txt1)
       else (eng, txt0).

Section Selector.
Context {image : Type}.

(** [pytesseract.image_to_string(img)] and
    [pytesseract.image_to_string(img, lang=...)]. *)
Definition engine := image -> option str -> outcome str.

(** A call is logged by its [lang] argument. *)
Definition image_to_string (tess : engine) (img : image) (lang : option str)
  : run (option str) str :=
  call lang (tess img lang).

Definition ocr_image_with_smart_lang (pytesseract : option engine)
  (img : image) : run (option str) ocr_dict :=
  match pytesseract with
  | None =>
      ret (OcrFail
        (lit "pytesseract not available. Install pytesseract and Tesseract."))
  | Some tess =>
      (r0 <- attempt (image_to_string tess img None) ;;
       match r0 with
       | Raise e =>
           ret (OcrFail (lit "Tesseract initial OCR failed: " ++ exn_str e))
       | Return txt0 =>
           let txt0 := strip txt0 in
           ' (detected, top_count, total_matched, breakdown, _) <-
             lift (unpack5 (detect_script_with_confidence txt0)) ;;
           let suggested_lang := get TESS_LANG_SUGGEST detected eng in
           if negb (str_eqb suggested_lang eng) then
             r1 <- attempt (image_to_string tess img (Some suggested_lang)) ;;
             match r1 with
             | Return txt1 =>
                 let txt1 := strip txt1 in
                 let sel := select suggested_lang txt0 txt1 in
                 ret (OcrOk (snd sel) (fst sel) detected breakdown)
             | Raise _ =>
                 ret (OcrOk txt0 eng detected breakdown)
             end
           else
             ret (OcrOk txt0 eng detected breakdown)
       end)%eff
  end.

(** [api_ocr] (lines 467-495). [upload] is [None] when the request has no
    ['image'] file, and otherwise the outcome of
    [Image.open(file.stream).convert('RGB')]. *)
Definition api_ocr (pytesseract : option engine)
  (upload : option (outcome image)) : run (option str) response :=
  match upload with
  | None => ret (Jsonify 400 (ErrorBody (lit "No image uploaded")))
  | Some opened =>
      match pytesseract with
      | None =>
          ret (Jsonify 500
                 (ErrorBody (lit "pytesseract not installed on server")))
      | Some _ =>
          match opened with
          | Raise e =>
              ret (Jsonify 400 (ErrorBody (lit "Invalid image: " ++ exn_str e)))
          | Return img =>
              (res <- ocr_image_with_smart_lang pytesseract img ;;
               match res with
               | OcrFail error => ret (Jsonify 500 (ErrorBody error))
               | OcrOk text used_lang detected_script _ =>
                   ' (detected, top_count, total_matched, breakdown,
                      confidence) <-
                     lift (unpack5 (detect_script_with_confidence text)) ;;
                   ret (Jsonify 200
                          (OcrBody text used_lang detected_script
                                   breakdown confidence))
               end)%eff
          end
      end
  end.
End Selector.

(** The selection rule as the single comparison of lengths. *)
Definition select_by_length (suggested_lang txt0 txt1 : str) : str * str :=
  if len txt0 <? len txt1 then (suggested_lang, txt1) else (eng, txt0).

End Ocr.
Export Ocr.

(* ================================================================== *)
(** ** TransliterationResolver: [perform_transliteration] *)
(* ================================================================== *)

Module Translit.

(** [aksha_process(src, tgt, text)]. *)
Definition backend := str -> str -> str -> outcome str.

Definition not_installed : exn :=
  mkExn RuntimeError
    (lit "Aksharamukha is not installed on server. Install with `pip install aksharamukha`.").

(** A call to the backend is logged by its three arguments. *)
Definition perform_transliteration (aksha_process : option backend)
  (src_script tgt_script text : str) : run (str * str * str) str :=
  match aksha_process with
  | None => raise not_installed
  | Some process =>
      (src_script <-
         (if str_eqb src_script ISO then
            ' (detected, top_count, total_matched, breakdown, _) <-
              lift (unpack5 (detect_script_with_confidence text)) ;;
            if negb (str_eqb detected ISO) then ret detected
            else ret src_script
          else ret src_script) ;;
       call (src_script, tgt_script, text)
            (process src_script tgt_script text))%eff
  end.

End Translit.
Export Translit.

(* ================================================================== *)
(** ** Concrete inputs used by the examples below *)
(* ================================================================== *)

Module Samples.

(** "\u0928\u092E\u0938\u094D\u0924\u0947" (namaste, Devanagari). *)
Definition namaste : str := [0x928; 0x92E; 0x938; 0x94D; 0x924; 0x947].

(** "\u0915" (ka, Devanagari). *)
Definition ka : str := [0x915].

(** "\u0BB5" (va, Tamil). *)
Definition va : str := [0xBB5].

Definition digits : str := lit "12345".

(** One Latin and one Devanagari letter: a tie at count 1. *)
Definition tie : str := lit "a" ++ ka.

Definition boom : exn := mkExn EngineError (lit "tesseract crashed").

(** OCR engines on a one-image world. *)
Definition blank_then_namaste : @engine unit :=
  fun _ lang =>
    match lang with
    | None => Return (lit "  ")
    | Some _ => Return namaste
    end.

Definition ka_then_boom : @engine unit :=
  fun _ lang =>
    match lang with
    | None => Return (lit " " ++ ka ++ lit " ")
    | Some _ => Raise boom
    end.

Definition ka_then_tamil : @engine unit :=
  fun _ lang =>
    match lang with
    | None => Return ka
    | Some _ => Return (va ++ va)
    end.

Definition ka_then_digits : @engine unit :=
  fun _ lang =>
    match lang with
    | None => Return ka
    | Some _ => Return digits
    end.

Definition always_boom : @engine unit := fun _ _ => Raise boom.

(** A transliteration backend that answers with its source argument. *)
Definition echo_source : backend := fun src _ _ => Return src.

End Samples.
Import Samples.

(* ================================================================== *)
(** ** [api_transliterate] *)
(* ================================================================== *)

Module Api.
Import PyDict.

(** [{"ok": True, ...}] or [{"ok": False, "error": ...}]. *)
Inductive answer (A : Type) :=
| JsonOk (a : A)
| JsonError (error : str).
Arguments JsonOk {A} a.
Arguments JsonError {A} error.

(** [jsonify(...), code]; a bare [jsonify(...)] is code 200. *)
Record reply (A : Type) := Reply { code : Z; content : answer A }.
Arguments Reply {A} code content.
Arguments code {A} r.
Arguments content {A} r.

(** [api_transliterate] (lines 499-513), from the decoded JSON object on;
    its fields are strings. The [try] around [perform_transliteration]
    catches every [Exception]. *)
Definition api_transliterate (aksha_process : option backend)
  (data : dict str) : run (str * str * str) (reply str) :=
  let text := get data (lit "text") [] in
  let src := get data (lit "src") [] in
  let tgt := get data (lit "tgt") [] in
  if negb (truthy text) then
    ret (Reply 400 (JsonError (lit "Empty text")))
  else
    match aksha_process with
    | None =>
        ret (Reply 500 (JsonError
          (lit "Aksharamukha not available on server. Install `aksharamukha`.")))
    | Some _ =>
        (r <- attempt (perform_transliteration aksha_process src tgt text) ;;
         match r with
         | Return result => ret (Reply 200 (JsonOk result))
         | Raise e => ret (Reply 500 (JsonError (exn_str e)))
         end)%eff
    end.

End Api.
Export Api.

(* ================================================================== *)
(** ** The phrasebook store and its handlers *)
(* ================================================================== *)

Module Phrasebook.
Import PyDict.

(** A stored phrase: a JSON object whose values are strings. *)
Definition phrase := dict str.

(** What a subscript or a slice can raise. *)
Inductive lookup_error :=
| KeyError (key : str)
| TypeError.

Inductive tried (A : Type) :=
| Done (a : A)
| Failed (e : lookup_error).
Arguments Done {A} a.
Arguments Failed {A} e.

(** [d.get(k)]: [None] when the key is missing. *)
Fixpoint lookup {V} (d : dict V) (k : str) : option V :=
  match d with
  | [] => None
  | (k', v) :: r => if str_eqb k' k then Some v else lookup r k
  end.

(** [d[k]] *)
Definition subscript (d : phrase) (k : str) : tried str :=
  match lookup d k with
  | Some v => Done v
  | None => Failed (KeyError k)
  end.


(** The content of [phrasebooks.json]: [None] when the file cannot be opened
    or parsed, otherwise the JSON list it holds. *)
Definition phrasebook_file := option (list phrase).

(** [load_phrasebooks] (lines 153-158): any exception gives [[]]. *)
Definition load_phrasebooks (file : phrasebook_file) : list phrase :=
  match file with
  | Some pb => pb
  | None => []
  end.

(** [save_phrasebooks] (lines 161-163). *)
Definition save_phrasebooks (pb_list : list phrase) : phrasebook_file :=
  Some pb_list.






(** The [for it in pb] loop of lines 550-553. *)
Fixpoint get_loop (pb : list phrase) (pid : str) : tried (reply phrase) :=
  match pb with
  | [] => Done (Reply 404 (JsonError (lit "Not found")))
  | it :: rest =>
      match subscript it (lit "id") with
      | Failed e => Failed e
      | Done id =>
          if str_eqb id pid then Done (Reply 200 (JsonOk it))
          else get_loop rest pid
      end
  end.

(** [api_phrasebook_get] (lines 548-553). *)
Definition api_phrasebook_get (pid : str) (file : phrasebook_file)
  : tried (reply phrase) :=
  get_loop (load_phrasebooks file) pid.

(** [[it for it in pb if it["id"] != pid]] *)
Fixpoint keep_others (pb : list phrase) (pid : str) : tried (list phrase) :=
  match pb with
  | [] => Done []
  | it :: rest =>
      match subscript it (lit "id") with
      | Failed e => Failed e
      | Done id =>
          match keep_others rest pid with
          | Failed e => Failed e
          | Done new =>
              if negb (str_eqb id pid) then Done (it :: new) else Done new
          end
      end
  end.

(** [api_phrasebook_delete] (lines 557-563). *)
Definition api_phrasebook_delete (pid : str) (file : phrasebook_file)
  : phrasebook_file * tried (reply unit) :=
  let pb := load_phrasebooks file in
  match keep_others pb pid with
  | Failed e => (file, Failed e)
  | Done new =>
      if len new =? len pb then
        (file, Done (Reply 404 (JsonError (lit "Not found"))))
      else
        (save_phrasebooks new, Done (Reply 200 (JsonOk tt)))
  end.

(** An object that the list, get and delete handlers can read: it has an
    ["id"] and a ["text"]. *)
Definition readable (it : phrase) : Prop :=
  lookup it (lit "id") <> None /\ lookup it (lit "text") <> None.

(** The phrase has the id [pid]. *)
Definition has_id (pid : str) (it : phrase) : bool :=
  match lookup it (lit "id") with
  | Some id => str_eqb id pid
  | None => false
  end.

Definition not_found {A} : reply A := Reply 404 (JsonError (lit "Not found")).

End Phrasebook.
Export Phrasebook.

(* ================================================================== *)
(** ** Further concrete inputs *)
(* ================================================================== *)

Module MoreSamples.
Import PyDict.

Definition request_tamil : dict str :=
  [ (lit "text", va ++ va); (lit "src", ISO); (lit "tgt", lit "Tamil") ].

Definition request_digits : dict str :=
  [ (lit "text", digits); (lit "src", ISO); (lit "tgt", lit "Tamil") ].


Definition old_phrase : phrase :=
  [ (lit "id", lit "p1"); (lit "title", lit "old"); (lit "text", ka);
    (lit "src", lit "Devanagari"); (lit "tgt", ISO);
    (lit "created_at", lit "2024-01-01T00:00:00Z") ].

Definition shelf : phrasebook_file := Some [old_phrase].

(** An engine that reads Latin text and is never asked twice. *)
Definition latin_only : @engine unit :=
  fun _ lang =>
    match lang with
    | None => Return (lit " hello ")
    | Some _ => Raise boom
    end.

End MoreSamples.
Import MoreSamples.

(* ================================================================== *)
(** * Properties *)
(* ================================================================== *)

(** ** Strings *)

Section StrFacts.

Lemma str_eqb_eq (a b : str) : str_eqb a b = true <-> a = b.
Proof.
  revert b; induction a as [|x a IH]; intros [|y b]; simpl;
    try (split; (discriminate || reflexivity)).
  rewrite andb_true_iff, Z.eqb_eq, IH.
  split; [intros [-> ->]; reflexivity | intros [= -> ->]; auto].
Qed.

Lemma str_eqb_refl (a : str) : str_eqb a a = true.
Proof. now apply str_eqb_eq. Qed.

Lemma str_eqb_neq (a b : str) : str_eqb a b = false <-> a <> b.
Proof.
  rewrite <- str_eqb_eq. destruct (str_eqb a b); intuition congruence.
Qed.

Lemma len_nonneg {A} (s : list A) : 0 <= len s.
Proof. unfold len; lia. Qed.

Lemma len_zero {A} (s : list A) : len s = 0 <-> s = [].
Proof. unfold len; destruct s; simpl; split; (lia || congruence). Qed.

Lemma truthy_len {A} (s : list A) : truthy s = true <-> 0 < len s.
Proof. unfold len; destruct s; simpl; split; (lia || congruence). Qed.

Lemma lstrip_clean (s : str) : clean_front (lstrip s).
Proof.
  induction s as [|c s IH]; simpl; [exact I|].
  destruct (is_space c) eqn:E; [exact IH | exact E].
Qed.

Lemma lstrip_fixed (s : str) : clean_front s -> lstrip s = s.
Proof. destruct s as [|c s]; simpl; [reflexivity | now intros ->]. Qed.

Lemma lstrip_idem (s : str) : lstrip (lstrip s) = lstrip s.
Proof. apply lstrip_fixed, lstrip_clean. Qed.

(** Stripping the front of [l ++ [h]] never removes a non-space [h]. *)
Lemma lstrip_snoc (l : str) (h : codepoint) :
  is_space h = false -> exists l', lstrip (l ++ [h]) = l' ++ [h].
Proof.
  intros Hh; induction l as [|c l IH]; simpl.
  - rewrite Hh; now exists [].
  - destruct (is_space c); [exact IH | now exists (c :: l)].
Qed.

Lemma rstrip_clean (s : str) : clean_front s -> clean_front (rstrip s).
Proof.
  destruct s as [|h s]; [intros _; exact I|]; simpl; intros Hh.
  unfold rstrip; simpl.
  destruct (lstrip_snoc (rev s) h Hh) as [l' ->].
  rewrite rev_app_distr; simpl; exact Hh.
Qed.

Lemma rstrip_idem (s : str) : rstrip (rstrip s) = rstrip s.
Proof. unfold rstrip; now rewrite rev_involutive, lstrip_idem. Qed.

Theorem strip_idem (s : str) : strip (strip s) = strip s.
Proof.
  unfold strip.
  rewrite (lstrip_fixed (rstrip (lstrip s))).
  - apply rstrip_idem.
  - apply rstrip_clean, lstrip_clean.
Qed.

Lemma strip_nil : strip [] = [].
Proof. reflexivity. Qed.

End StrFacts.

(** ** Dictionaries *)

Section DictFacts.
Import PyDict.

Lemma get_absent {V} (d : dict V) (k : str) (v : V) :
  ~ In k (keys d) -> get d k v = v.
Proof.
  induction d as [|[k' v'] d IH]; simpl; [reflexivity|]; intros H.
  destruct (str_eqb k' k) eqn:E.
  - apply str_eqb_eq in E; tauto.
  - apply IH; tauto.
Qed.

Lemma set_absent {V} (d : dict V) (k : str) (v : V) :
  ~ In k (keys d) -> set d k v = d ++ [(k, v)].
Proof.
  induction d as [|[k' v'] d IH]; simpl; [reflexivity|]; intros H.
  destruct (str_eqb k' k) eqn:E.
  - apply str_eqb_eq in E; tauto.
  - rewrite IH; tauto.
Qed.

Lemma get_present {V} (d : dict V) (k : str) (v default : V) :
  NoDup (keys d) -> In (k, v) d -> get d k default = v.
Proof.
  induction d as [|[k' v'] d IH]; simpl; [tauto|].
  intros Hnd [H|H]; inversion Hnd as [|? ? Hk Hd]; subst.
  - injection H as -> ->. now rewrite str_eqb_refl.
  - destruct (str_eqb k' k) eqn:E.
    + apply str_eqb_eq in E; subst.
      exfalso; apply Hk. change k with (fst (k, v)). now apply in_map.
    + now apply IH.
Qed.

Lemma sum_values_app (a b : dict Z) :
  sum_values (a ++ b) = sum_values a + sum_values b.
Proof.
  unfold sum_values, values; induction a as [|[k v] a IH]; simpl; lia.
Qed.

(** The running maximum never decreases and stays in the list. *)
Lemma max_item_in (rest : dict Z) (kv : str * Z) :
  In (max_item kv rest) (kv :: rest).
Proof.
  unfold max_item; revert kv; induction rest as [|x rest IH]; intros kv.
  - now left.
  - simpl fold_left. specialize (IH (max_step kv x)).
    unfold max_step in *. destruct (snd kv <? snd x); simpl in *; tauto.
Qed.

Lemma max_item_ge_head (rest : dict Z) (kv : str * Z) :
  snd kv <= snd (max_item kv rest).
Proof.
  unfold max_item; revert kv; induction rest as [|x rest IH]; intros kv.
  - simpl; lia.
  - simpl fold_left. specialize (IH (max_step kv x)).
    unfold max_step in *. destruct (snd kv <? snd x) eqn:E; [|exact IH].
    apply Z.ltb_lt in E. lia.
Qed.

Lemma max_item_upper (rest : dict Z) (kv x : str * Z) :
  In x (kv :: rest) -> snd x <= snd (max_item kv rest).
Proof.
  revert kv; induction rest as [|y rest IH]; intros kv [<-|H].
  - apply max_item_ge_head.
  - destruct H.
  - apply max_item_ge_head.
  - unfold max_item; simpl fold_left. fold (max_item (max_step kv y) rest).
    destruct H as [<-|H].
    + etransitivity; [|apply max_item_ge_head].
      unfold max_step. destruct (snd kv <? snd y) eqn:E; [lia|].
      apply Z.ltb_ge in E; exact E.
    + apply IH; now right.
Qed.

(** Once the running maximum is [x] and nothing later is strictly larger,
    the result is [x]. *)
Lemma max_item_keep (rest : dict Z) (x : str * Z) :
  (forall y, In y rest -> snd y <= snd x) -> max_item x rest = x.
Proof.
  unfold max_item; induction rest as [|y rest IH]; intros H; simpl.
  - reflexivity.
  - unfold max_step at 2.
    assert (snd y <= snd x) by (apply H; now left).
    destruct (snd x <? snd y) eqn:E; [apply Z.ltb_lt in E; lia|].
    apply IH; intros z Hz; apply H; now right.
Qed.

(** The first item that reaches the maximum wins: everything before it is
    strictly smaller, nothing after it is larger. *)
Lemma max_fold_first (before after : dict Z) (x best : str * Z) :
  snd best < snd x ->
  (forall y, In y before -> snd y < snd x) ->
  (forall y, In y after -> snd y <= snd x) ->
  fold_left max_step (before ++ x :: after) best = x.
Proof.
  revert best; induction before as [|b before IH]; intros best Hbest Hb Ha.
  - simpl. unfold max_step at 2.
    destruct (snd best <? snd x) eqn:E; [|apply Z.ltb_ge in E; lia].
    now apply max_item_keep.
  - simpl. apply IH.
    + unfold max_step. destruct (snd best <? snd b); [|exact Hbest].
      apply Hb; now left.
    + intros y Hy; apply Hb; now right.
    + exact Ha.
Qed.

Lemma max_item_first (before after rest : dict Z) (kv x : str * Z) :
  kv :: rest = before ++ x :: after ->
  (forall y, In y before -> snd y < snd x) ->
  (forall y, In y after -> snd y <= snd x) ->
  max_item kv rest = x.
Proof.
  intros E Hb Ha. destruct before as [|b before]; simpl in E.
  - injection E as -> ->. now apply max_item_keep.
  - injection E as -> ->. unfold max_item. apply max_fold_first.
    + apply Hb; now left.
    + intros y Hy; apply Hb; now right.
    + exact Ha.
Qed.

End DictFacts.

(** ** The classifier *)

Section ClassifierFacts.
Import PyDict.

Variable text : str.

Lemma item_keys (e : pattern * str) :
  keys (item text e) = [] \/ keys (item text e) = [snd e].
Proof. unfold item; destruct (truthy _); simpl; auto. Qed.

Lemma tally_keys_incl (ranges : list (pattern * str)) (k : str) :
  In k (keys (tally text ranges)) -> In k (map snd ranges).
Proof.
  unfold tally, keys; induction ranges as [|e ranges IH]; simpl; [tauto|].
  rewrite map_app, in_app_iff. intros [H|H]; [|right; now apply IH].
  left. destruct (item_keys e) as [E|E]; unfold keys in E; rewrite E in H;
    simpl in H; tauto.
Qed.

Lemma tally_keys_nodup (ranges : list (pattern * str)) :
  NoDup (map snd ranges) -> NoDup (keys (tally text ranges)).
Proof.
  unfold tally, keys; induction ranges as [|e ranges IH]; simpl;
    [constructor|].
  intros H; inversion H as [|? ? Hn Hd]; subst.
  rewrite map_app. unfold item. destruct (truthy _); simpl.
  - constructor; [|now apply IH].
    intros Hin; apply Hn. now apply tally_keys_incl.
  - now apply IH.
Qed.

(** Every count stored in the dict is the positive count of its range. *)
Lemma tally_in (ranges : list (pattern * str)) (k : str) (v : Z) :
  In (k, v) (tally text ranges) ->
  exists p, In (p, k) ranges /\ v = count p text /\ 0 < v.
Proof.
  unfold tally; rewrite in_flat_map. intros [[p n] [He Hi]].
  unfold item in Hi; simpl in Hi.
  destruct (truthy (findall p text)) eqn:E; [|destruct Hi].
  destruct Hi as [[= <- <-]|[]].
  exists p; repeat split; auto. now apply truthy_len.
Qed.

Lemma tally_positive (ranges : list (pattern * str)) (kv : str * Z) :
  In kv (tally text ranges) -> 0 < snd kv.
Proof.
  destruct kv as [k v]; intros H.
  destruct (tally_in _ _ _ H) as (p & _ & _ & Hv); exact Hv.
Qed.

Lemma sum_values_lower (d : dict Z) (kv : str * Z) :
  (forall x, In x d -> 0 < snd x) -> In kv d -> snd kv <= sum_values d.
Proof.
  unfold sum_values, values; induction d as [|x d IH]; simpl; [tauto|].
  intros Hpos [->|H].
  - assert (0 <= fold_right Z.add 0 (map snd d)); [|lia].
    clear IH. induction d as [|y d IH]; simpl; [lia|].
    assert (0 < snd y) by (apply Hpos; simpl; auto).
    assert (0 <= fold_right Z.add 0 (map snd d)); [|lia].
    apply IH. intros z [<-|Hz]; apply Hpos; simpl; auto.
  - assert (0 < snd x) by (apply Hpos; now left).
    assert (snd kv <= fold_right Z.add 0 (map snd d)); [|lia].
    apply IH; auto.
Qed.

(** The loop appends, in catalog order, one item per range that matched,
    and adds the same counts to the running total. *)
Lemma count_loop_spec (ranges : list (pattern * str)) (d : dict Z) (t : Z) :
  NoDup (map snd ranges) ->
  (forall k, In k (map snd ranges) -> ~ In k (keys d)) ->
  count_loop text ranges (d, t)
  = (d ++ tally text ranges, t + sum_values (tally text ranges)).
Proof.
  unfold count_loop, tally.
  revert d t; induction ranges as [|[p n] ranges IH]; intros d t Hnd Hfresh.
  - simpl. rewrite app_nil_r. f_equal. unfold sum_values; simpl; lia.
  - inversion Hnd as [|? ? Hn Hd]; subst. simpl fold_left.
    simpl flat_map. unfold count_step at 2, item at 1 3.
    simpl fst; simpl snd.
    destruct (truthy (findall p text)).
    + rewrite get_absent, set_absent by (apply Hfresh; now left).
      rewrite IH; auto.
      * rewrite <- app_assoc, sum_values_app.
        unfold sum_values at 2; simpl. unfold count. f_equal. lia.
      * intros k Hk. unfold keys. rewrite map_app, in_app_iff.
        simpl. intros [H|[H|[]]].
        -- revert H. apply Hfresh. now right.
        -- subst. contradiction.
    + simpl app. rewrite IH; auto. intros k Hk; apply Hfresh; now right.
Qed.

End ClassifierFacts.

Section DetectFacts.
Import PyDict.

Lemma catalog_names_nodup : NoDup (map snd UNICODE_RANGES).
Proof.
  vm_compute. repeat constructor; simpl; intuition discriminate.
Qed.

Lemma tally_nil (ranges : list (pattern * str)) : tally [] ranges = [].
Proof. unfold tally; induction ranges; simpl; auto. Qed.

(** The function, with the loop replaced by what it computes. *)
Lemma detect_unfold (text : str) :
  detect_script_with_confidence text =
  let counts := tally text UNICODE_RANGES in
  let total_matched := sum_values counts in
  match counts with
  | [] => Tuple4 ISO 0 0 []
  | kv :: rest =>
      let top := max_item kv rest in
      Tuple5 (fst top) (snd top) total_matched counts
        (if 0 <? total_matched then divide (snd top) total_matched else 0%Q)
  end.
Proof.
  unfold detect_script_with_confidence.
  destruct text as [|c text]; [reflexivity|].
  cbn [truthy negb]. cbv zeta.
  set (st := count_loop _ _ _).
  assert (st = (tally (c :: text) UNICODE_RANGES,
                sum_values (tally (c :: text) UNICODE_RANGES))) as ->.
  { subst st. etransitivity.
    - apply count_loop_spec; [apply catalog_names_nodup | intros k _ []].
    - reflexivity. }
  reflexivity.
Qed.

Lemma unrecognised_findall (text : str) (e : pattern * str) :
  unrecognised text -> In e UNICODE_RANGES -> findall (fst e) text = [].
Proof.
  intros H He. unfold findall.
  assert (forall c, In c text -> matches (fst e) c = false) as Hc
    by (intros c Hc; now apply H).
  clear H. induction text as [|c t IH]; simpl; [reflexivity|].
  rewrite Hc by now left. apply IH. intros; apply Hc; now right.
Qed.

Lemma tally_empty_iff (text : str) :
  tally text UNICODE_RANGES = [] <-> unrecognised text.
Proof.
  split.
  - intros Ht c e Hc He. destruct (matches (fst e) c) eqn:Em; [|reflexivity].
    exfalso.
    assert (item text e = []) as Hi.
    { unfold tally in Ht. clear - Ht He.
      induction UNICODE_RANGES as [|x l IH]; [destruct He|].
      simpl in Ht. apply app_eq_nil in Ht as [H1 H2].
      destruct He as [->|He]; auto. }
    unfold item in Hi.
    assert (In c (findall (fst e) text)) as Hin
      by (unfold findall; apply filter_In; auto).
    destruct (findall (fst e) text); [destruct Hin|]. discriminate Hi.
  - intros H. unfold tally.
    assert (forall e, In e UNICODE_RANGES -> item text e = []) as Hi.
    { intros e He. unfold item.
      now rewrite (unrecognised_findall text e H He). }
    induction UNICODE_RANGES as [|x l IH]; simpl; [reflexivity|].
    rewrite Hi by now left. apply IH. intros; apply Hi; now right.
Qed.

(** The early returns are taken exactly on unrecognised text. *)
Lemma detect_unrecognised (text : str) :
  unrecognised text ->
  detect_script_with_confidence text = Tuple4 ISO 0 0 [].
Proof.
  intros H. rewrite detect_unfold. apply tally_empty_iff in H.
  now rewrite H.
Qed.

Lemma detect_tuple4_inv (text : str) (s : str) (c t : Z) (b : dict Z) :
  detect_script_with_confidence text = Tuple4 s c t b ->
  unrecognised text /\ s = ISO /\ c = 0 /\ t = 0 /\ b = [].
Proof.
  rewrite detect_unfold. cbv zeta.
  destruct (tally text UNICODE_RANGES) eqn:E; [|discriminate].
  intros [= <- <- <- <-]. apply tally_empty_iff in E. auto.
Qed.

Lemma empty_unrecognised : unrecognised [].
Proof. intros c e []. Qed.

(** The invariants of the 5-tuple return (line 92). *)
Lemma detect_tuple5_invariants (text s : str) (c t : Z) (b : dict Z) (q : Q) :
  detect_script_with_confidence text = Tuple5 s c t b q ->
  b = tally text UNICODE_RANGES
  /\ t = sum_values b
  /\ get b s 0 = c
  /\ 0 < c <= t
  /\ (forall x, In x b -> snd x <= c)
  /\ q = divide c t
  /\ (0 < q)%Q /\ (q <= 1)%Q.
Proof.
  rewrite detect_unfold. cbv zeta.
  destruct (tally text UNICODE_RANGES) as [|kv rest] eqn:E; [discriminate|].
  pose proof (max_item_in rest kv) as Hin.
  pose proof (max_item_upper rest kv) as Hup.
  assert (forall x, In x (kv :: rest) -> 0 < snd x) as Hpos
    by (intros x Hx; apply (tally_positive text UNICODE_RANGES);
        now rewrite E).
  pose proof (Hpos _ Hin) as Hc.
  pose proof (sum_values_lower _ _ Hpos Hin) as Hle.
  assert (NoDup (keys (kv :: rest))) as Hnd
    by (rewrite <- E; apply tally_keys_nodup, catalog_names_nodup).
  destruct (0 <? sum_values (kv :: rest)) eqn:Et;
    [|apply Z.ltb_ge in Et; lia].
  intros [= <- <- <- <- <-].
  repeat split; auto; try lia.
  - apply get_present; auto. now destruct (max_item kv rest).
  - unfold divide, Qlt; simpl. lia.
  - unfold divide, Qle; simpl. rewrite Z2Pos.id by lia. lia.
Qed.

End DetectFacts.

Section UnrecognisedFacts.

Lemma unrecognisedb_spec (text : str) :
  unrecognisedb text = true <-> unrecognised text.
Proof.
  unfold unrecognisedb, unrecognised, recognised.
  rewrite forallb_forall. split.
  - intros H c e Hc He. specialize (H c Hc).
    apply negb_true_iff in H.
    destruct (matches (fst e) c) eqn:E; [|reflexivity].
    assert (existsb (fun e => matches (fst e) c) UNICODE_RANGES = true)
      by (apply existsb_exists; eauto).
    congruence.
  - intros H c Hc. apply negb_true_iff.
    destruct (existsb _ _) eqn:E; [|reflexivity].
    apply existsb_exists in E as (e & He & Hm).
    rewrite (H c e Hc He) in Hm. discriminate.
Qed.

Lemma unpack5_tuple4 (d : detection) :
  confidence_of d = None <-> unpack5 d = Raise unpack_error.
Proof. destruct d; simpl; split; congruence. Qed.

End UnrecognisedFacts.

(** ** The selector, case by case *)

Section SelectorFacts.
Import PyDict.
Context {image : Type}.
Variables (tess : @engine image) (img : image).

Local Ltac step := cbn [trace result app unpack5 negb].
Local Ltac run_ocr :=
  unfold ocr_image_with_smart_lang, image_to_string, attempt, call, lift,
    bind, ret; step.

Lemma ocr_unavailable :
  ocr_image_with_smart_lang None img
  = mkRun []
      (Return (OcrFail
        (lit "pytesseract not available. Install pytesseract and Tesseract."))).
Proof. reflexivity. Qed.

Lemma ocr_first_pass_raises (e : exn) :
  tess img None = Raise e ->
  ocr_image_with_smart_lang (Some tess) img
  = mkRun [None]
      (Return (OcrFail (lit "Tesseract initial OCR failed: " ++ exn_str e))).
Proof. intros H. run_ocr. now rewrite H. Qed.

Lemma ocr_unpack_raises (raw0 s : str) (c t : Z) (b : dict Z) :
  tess img None = Return raw0 ->
  detect_script_with_confidence (strip raw0) = Tuple4 s c t b ->
  ocr_image_with_smart_lang (Some tess) img
  = mkRun [None] (Raise unpack_error).
Proof. intros H0 Hd. run_ocr. rewrite H0; step. now rewrite Hd. Qed.

Lemma ocr_no_retry (raw0 s : str) (c t : Z) (b : dict Z) (q : Q) :
  tess img None = Return raw0 ->
  detect_script_with_confidence (strip raw0) = Tuple5 s c t b q ->
  get TESS_LANG_SUGGEST s eng = eng ->
  ocr_image_with_smart_lang (Some tess) img
  = mkRun [None] (Return (OcrOk (strip raw0) eng s b)).
Proof.
  intros H0 Hd Hl. run_ocr. rewrite H0; step. rewrite Hd; step.
  rewrite Hl. now rewrite str_eqb_refl.
Qed.

Lemma ocr_retry_returns (raw0 raw1 s : str) (c t : Z) (b : dict Z) (q : Q) :
  tess img None = Return raw0 ->
  detect_script_with_confidence (strip raw0) = Tuple5 s c t b q ->
  get TESS_LANG_SUGGEST s eng <> eng ->
  tess img (Some (get TESS_LANG_SUGGEST s eng)) = Return raw1 ->
  ocr_image_with_smart_lang (Some tess) img
  = let lang := get TESS_LANG_SUGGEST s eng in
    let sel := select lang (strip raw0) (strip raw1) in
    mkRun [None; Some lang] (Return (OcrOk (snd sel) (fst sel) s b)).
Proof.
  intros H0 Hd Hl H1. run_ocr. rewrite H0; step. rewrite Hd; step.
  apply str_eqb_neq in Hl. rewrite Hl; step. now rewrite H1.
Qed.

Lemma ocr_retry_raises (raw0 s : str) (c t : Z) (b : dict Z) (q : Q)
  (e : exn) :
  tess img None = Return raw0 ->
  detect_script_with_confidence (strip raw0) = Tuple5 s c t b q ->
  get TESS_LANG_SUGGEST s eng <> eng ->
  tess img (Some (get TESS_LANG_SUGGEST s eng)) = Raise e ->
  ocr_image_with_smart_lang (Some tess) img
  = mkRun [None; Some (get TESS_LANG_SUGGEST s eng)]
      (Return (OcrOk (strip raw0) eng s b)).
Proof.
  intros H0 Hd Hl H1. run_ocr. rewrite H0; step. rewrite Hd; step.
  apply str_eqb_neq in Hl. rewrite Hl; step. now rewrite H1.
Qed.

(** A second pass is attempted only with the language suggested for the
    script of a recognised first-pass text, and that language is not the
    default one. *)
Lemma second_pass_inv (raw0 lang : str) :
  tess img None = Return raw0 ->
  In (Some lang) (trace (ocr_image_with_smart_lang (Some tess) img)) ->
  exists s c t b q,
    detect_script_with_confidence (strip raw0) = Tuple5 s c t b q
    /\ lang = get TESS_LANG_SUGGEST s eng
    /\ lang <> eng.
Proof.
  intros H0 Hin.
  destruct (detect_script_with_confidence (strip raw0))
    as [s c t b|s c t b q] eqn:Hd.
  - rewrite (ocr_unpack_raises _ _ _ _ _ H0 Hd) in Hin.
    simpl in Hin. destruct Hin as [|[]]; discriminate.
  - destruct (str_eqb (get TESS_LANG_SUGGEST s eng) eng) eqn:El.
    + apply str_eqb_eq in El.
      rewrite (ocr_no_retry _ _ _ _ _ _ H0 Hd El) in Hin.
      simpl in Hin. destruct Hin as [|[]]; discriminate.
    + apply str_eqb_neq in El.
      exists s, c, t, b, q. split; [reflexivity|].
      destruct (tess img (Some (get TESS_LANG_SUGGEST s eng)))
        as [raw1|e] eqn:H1.
      * rewrite (ocr_retry_returns _ _ _ _ _ _ _ H0 Hd El H1) in Hin.
        simpl in Hin. destruct Hin as [|[[= <-]|[]]];
          [discriminate | auto].
      * rewrite (ocr_retry_raises _ _ _ _ _ _ _ H0 Hd El H1) in Hin.
        simpl in Hin. destruct Hin as [|[[= <-]|[]]];
          [discriminate | auto].
Qed.

End SelectorFacts.

(** ** ScriptClassifier: the early returns *)

(** What [api_detect] does with text that has no catalog character. *)
Lemma api_detect_unrecognised (text : str) :
  unrecognised text ->
  api_detect text = mkRun [] (Raise unpack_error).
Proof.
  intros H. unfold api_detect, bind, lift, ret.
  now rewrite (detect_unrecognised text H).
Qed.

Lemma digits_unrecognised : unrecognised digits.
Proof. apply unrecognisedb_spec. reflexivity. Qed.

(** C1. On the empty string, and on a string of digits, the function
    returns [("ISO", 0, 0, {})]: script, top count, total and breakdown are
    as stated, but the tuple has four components and no confidence, and the
    five-target unpacking of [api_detect] raises [ValueError] on it. *)
Theorem C1_detect_empty_has_no_confidence :
  detect_script_with_confidence [] = Tuple4 ISO 0 0 []
  /\ confidence_of (detect_script_with_confidence []) = None
  /\ api_detect [] = mkRun [] (Raise unpack_error)
  /\ detect_script_with_confidence digits = Tuple4 ISO 0 0 []
  /\ confidence_of (detect_script_with_confidence digits) = None
  /\ api_detect digits = mkRun [] (Raise unpack_error).
Proof.
  rewrite (api_detect_unrecognised [] empty_unrecognised).
  rewrite (api_detect_unrecognised digits digits_unrecognised).
  rewrite (detect_unrecognised [] empty_unrecognised).
  rewrite (detect_unrecognised digits digits_unrecognised).
  repeat split.
Qed.

(** C3. On the empty string and on a string of digits [total_matched] is 0
    and the result carries no confidence at all, so "confidence = 0 iff
    totalMatched = 0" has no confidence to speak of. The invariants of the
    5-tuple are [detect_recognised_invariants]. *)
Theorem C3_total_zero_without_confidence :
  total_matched_of (detect_script_with_confidence []) = 0
  /\ confidence_of (detect_script_with_confidence []) = None
  /\ total_matched_of (detect_script_with_confidence digits) = 0
  /\ confidence_of (detect_script_with_confidence digits) = None
  /\ unpack5 (detect_script_with_confidence digits) = Raise unpack_error.
Proof.
  rewrite (detect_unrecognised [] empty_unrecognised).
  rewrite (detect_unrecognised digits digits_unrecognised).
  repeat split.
Qed.

(** Where the function does return five values, the stated invariants hold:
    the confidence lies in (0, 1], the total is the sum of the breakdown
    and the top count is the winner's entry. *)
Lemma detect_recognised_invariants (text : str) :
  ~ unrecognised text ->
  exists s c t b q,
    detect_script_with_confidence text = Tuple5 s c t b q
    /\ (0 < q)%Q /\ (q <= 1)%Q
    /\ 0 < t /\ t = PyDict.sum_values b
    /\ c = PyDict.get b s 0.
Proof.
  intros H.
  destruct (detect_script_with_confidence text) as [s c t b|s c t b q] eqn:E.
  - apply detect_tuple4_inv in E. tauto.
  - exists s, c, t, b, q.
    destruct (detect_tuple5_invariants _ _ _ _ _ _ E)
      as (_ & Ht & Hg & Hc & _ & _ & Hq0 & Hq1).
    repeat split; auto; lia.
Qed.

(** ** ScriptClassifier: the tie-break *)

Lemma tally_app (text : str) (a b : list (pattern * str)) :
  tally text (a ++ b) = tally text a ++ tally text b.
Proof. unfold tally. apply flat_map_app. Qed.

(** The first catalog entry that reaches the maximal positive count is the
    winner, whatever comes after it. *)
Lemma detect_first_max (text : str) (before after : list (pattern * str))
  (p : pattern) (n : str) :
  UNICODE_RANGES = before ++ (p, n) :: after ->
  0 < count p text ->
  Forall (fun e => count (fst e) text < count p text) before ->
  Forall (fun e => count (fst e) text <= count p text) after ->
  exists t b q,
    detect_script_with_confidence text = Tuple5 n (count p text) t b q.
Proof.
  intros Hcat Hpos Hb Ha. rewrite detect_unfold. cbv zeta.
  assert (tally text UNICODE_RANGES
          = tally text before ++ (n, count p text) :: tally text after) as Ht.
  { rewrite Hcat, tally_app. f_equal. change ((p, n) :: after)
      with ([(p, n)] ++ after). rewrite tally_app. unfold tally at 1.
    simpl. unfold item. simpl.
    apply truthy_len in Hpos. now rewrite Hpos. }
  assert (forall y, In y (tally text before) -> snd y < count p text) as Hb'.
  { intros [k v] Hy. destruct (tally_in _ _ _ _ Hy) as (p' & Hin & -> & _).
    rewrite Forall_forall in Hb. apply (Hb (p', k) Hin). }
  assert (forall y, In y (tally text after) -> snd y <= count p text) as Ha'.
  { intros [k v] Hy. destruct (tally_in _ _ _ _ Hy) as (p' & Hin & -> & _).
    rewrite Forall_forall in Ha. apply (Ha (p', k) Hin). }
  destruct (tally text UNICODE_RANGES) as [|kv rest] eqn:E.
  - destruct (tally text before); discriminate Ht.
  - rewrite (max_item_first _ _ _ _ _ Ht Hb' Ha'). simpl. eauto.
Qed.

(** C5. When two catalog entries share the maximal count, the one declared
    first wins: if entry [i] is the first to reach the maximum and a later
    entry [j] reaches it too, the detected script is the name of entry [i]
    (and not that of entry [j]). *)
Theorem C5_tie_goes_to_first_declared (text : str) (i j : nat)
  (pi pj : pattern) (ni nj : str) :
  (i < j)%nat ->
  nth_error UNICODE_RANGES i = Some (pi, ni) ->
  nth_error UNICODE_RANGES j = Some (pj, nj) ->
  0 < count pi text ->
  count pj text = count pi text ->
  Forall (fun e => count (fst e) text <= count pi text) UNICODE_RANGES ->
  Forall (fun e => count (fst e) text < count pi text)
         (firstn i UNICODE_RANGES) ->
  script_of (detect_script_with_confidence text) = ni
  /\ top_count_of (detect_script_with_confidence text) = count pi text
  /\ ni <> nj.
Proof.
  intros Hij Hi Hj Hpos Heq Hall Hfirst.
  destruct (nth_error_split _ _ Hi) as (before & after & Hcat & Hlen).
  assert (firstn i UNICODE_RANGES = before) as Hf.
  { rewrite Hcat, <- Hlen. rewrite firstn_app, Nat.sub_diag, firstn_all.
    simpl. apply app_nil_r. }
  rewrite Hf in Hfirst.
  assert (Forall (fun e => count (fst e) text <= count pi text) after) as Ha.
  { rewrite Hcat in Hall. apply Forall_app in Hall as [_ Hall].
    now inversion Hall. }
  destruct (detect_first_max text before after pi ni Hcat Hpos Hfirst Ha)
    as (t & b & q & ->).
  repeat split.
  pose proof catalog_names_nodup as Hnd.
  intros <-.
  assert (nth_error (map snd UNICODE_RANGES) i = Some ni) as Ei
    by (rewrite nth_error_map, Hi; reflexivity).
  assert (nth_error (map snd UNICODE_RANGES) j = Some ni) as Ej
    by (rewrite nth_error_map, Hj; reflexivity).
  assert (i = j); [|lia].
  apply (proj1 (NoDup_nth_error _) Hnd).
  - apply nth_error_Some. congruence.
  - congruence.
Qed.

Lemma C5_witness_latin_devanagari :
  count [(0x41, 0x5A); (0x61, 0x7A)] tie = count [(0x0900, 0x097F)] tie
  /\ script_of (detect_script_with_confidence tie) = lit "Devanagari"
  /\ top_count_of (detect_script_with_confidence tie) = 1
  /\ lit "Devanagari" <> ISO.
Proof.
  split; [reflexivity|].
  apply (C5_tie_goes_to_first_declared tie 0 10
           [(0x0900, 0x097F)] [(0x41, 0x5A); (0x61, 0x7A)]
           (lit "Devanagari") ISO).
  - lia.
  - reflexivity.
  - reflexivity.
  - reflexivity.
  - reflexivity.
  - repeat constructor; vm_compute; discriminate.
  - constructor.
Defined.

(** ** SmartOCRSelector *)

(** C9. When the first pass succeeds but its trimmed text is empty or has no
    catalog character, detection returns its 4-tuple, the five-target
    unpacking raises [ValueError], and the function ends with that
    exception after the single first-pass call: no dict is returned. *)
Theorem C9_unrecognised_first_pass_raises {image : Type}
  (tess : @engine image) (img : image) (raw0 : str) :
  tess img None = Return raw0 ->
  strip raw0 = [] \/ unrecognised (strip raw0) ->
  detect_script_with_confidence (strip raw0) = Tuple4 ISO 0 0 []
  /\ ocr_image_with_smart_lang (Some tess) img
     = mkRun [None] (Raise unpack_error)
  /\ forall d, result (ocr_image_with_smart_lang (Some tess) img) <> Return d.
Proof.
  intros H0 H.
  assert (unrecognised (strip raw0)) as Hu
    by (destruct H as [->|H]; [apply empty_unrecognised | exact H]).
  pose proof (detect_unrecognised _ Hu) as Hd.
  rewrite (ocr_unpack_raises tess img _ _ _ _ _ H0 Hd).
  repeat split; auto. intros d; discriminate.
Qed.

Lemma C9_witness_blank_page :
  blank_then_namaste tt None = Return (lit "  ")
  /\ strip (lit "  ") = []
  /\ detect_script_with_confidence (strip (lit "  ")) = Tuple4 ISO 0 0 []
  /\ ocr_image_with_smart_lang (Some blank_then_namaste) tt
     = mkRun [None] (Raise unpack_error)
  /\ forall d,
       result (ocr_image_with_smart_lang (Some blank_then_namaste) tt)
       <> Return d.
Proof.
  split; [reflexivity|]. split; [reflexivity|].
  apply (C9_unrecognised_first_pass_raises blank_then_namaste tt (lit "  ")).
  - reflexivity.
  - left; reflexivity.
Defined.

(** C6. When the first pass succeeds and the second pass, once attempted,
    raises, the exception is swallowed: the function returns the first-pass
    text with the default language, after exactly the two calls. *)
Theorem C6_second_pass_failure_is_swallowed {image : Type}
  (tess : @engine image) (img : image) (raw0 lang : str) (e : exn) :
  tess img None = Return raw0 ->
  In (Some lang) (trace (ocr_image_with_smart_lang (Some tess) img)) ->
  tess img (Some lang) = Raise e ->
  ocr_image_with_smart_lang (Some tess) img
  = mkRun [None; Some lang]
      (Return (OcrOk (strip raw0) eng
                 (script_of (detect_script_with_confidence (strip raw0)))
                 (breakdown_of (detect_script_with_confidence (strip raw0))))).
Proof.
  intros H0 Hin H1.
  destruct (second_pass_inv tess img raw0 lang H0 Hin)
    as (s & c & t & b & q & Hd & -> & Hl).
  rewrite (ocr_retry_raises tess img _ _ _ _ _ _ _ H0 Hd Hl H1).
  now rewrite Hd.
Qed.

Lemma C6_witness_retry_crashes :
  ka_then_boom tt None = Return (lit " " ++ ka ++ lit " ")
  /\ ka_then_boom tt (Some (lit "hin")) = Raise boom
  /\ ocr_image_with_smart_lang (Some ka_then_boom) tt
     = mkRun [None; Some (lit "hin")]
         (Return (OcrOk ka eng (lit "Devanagari") [(lit "Devanagari", 1)])).
Proof.
  split; [reflexivity|]. split; [reflexivity|].
  apply (C6_second_pass_failure_is_swallowed ka_then_boom tt
           (lit " " ++ ka ++ lit " ") (lit "hin") boom).
  - reflexivity.
  - vm_compute. right; left; reflexivity.
  - reflexivity.
Defined.

(** C7. Without a backend the function reports the unavailable-backend
    error and calls nothing. With a backend it reports an engine error
    exactly when the first pass raises, and then the first pass is the only
    call made. *)
Theorem C7_fatal_errors {image : Type} (img : image) :
  ocr_image_with_smart_lang None img
  = mkRun []
      (Return (OcrFail
        (lit "pytesseract not available. Install pytesseract and Tesseract.")))
  /\ forall tess : @engine image,
       (forall e, tess img None = Raise e ->
          ocr_image_with_smart_lang (Some tess) img
          = mkRun [None]
              (Return (OcrFail
                 (lit "Tesseract initial OCR failed: " ++ exn_str e))))
       /\ (forall error,
             result (ocr_image_with_smart_lang (Some tess) img)
             = Return (OcrFail error) ->
             exists e, tess img None = Raise e
                       /\ error = lit "Tesseract initial OCR failed: "
                                  ++ exn_str e
                       /\ trace (ocr_image_with_smart_lang (Some tess) img)
                          = [None]).
Proof.
  split; [reflexivity|]. intros tess. split.
  - intros e He. now apply ocr_first_pass_raises.
  - intros error Hr.
    destruct (tess img None) as [raw0|e] eqn:H0.
    + exfalso.
      destruct (detect_script_with_confidence (strip raw0))
        as [s c t b|s c t b q] eqn:Hd.
      * rewrite (ocr_unpack_raises tess img _ _ _ _ _ H0 Hd) in Hr.
        discriminate.
      * destruct (str_eqb (PyDict.get TESS_LANG_SUGGEST s eng) eng) eqn:El.
        -- apply str_eqb_eq in El.
           rewrite (ocr_no_retry tess img _ _ _ _ _ _ H0 Hd El) in Hr.
           discriminate.
        -- apply str_eqb_neq in El.
           destruct (tess img (Some (PyDict.get TESS_LANG_SUGGEST s eng)))
             as [raw1|e] eqn:H1.
           ++ rewrite (ocr_retry_returns tess img _ _ _ _ _ _ _ H0 Hd El H1)
                in Hr. discriminate.
           ++ rewrite (ocr_retry_raises tess img _ _ _ _ _ _ _ H0 Hd El H1)
                in Hr. discriminate.
    + rewrite (ocr_first_pass_raises tess img e H0) in Hr |- *.
      injection Hr as <-. exists e. auto.
Qed.

Lemma C7_witness_engine_down :
  always_boom tt None = Raise boom
  /\ ocr_image_with_smart_lang (Some always_boom) tt
     = mkRun [None]
         (Return (OcrFail
            (lit "Tesseract initial OCR failed: tesseract crashed"))).
Proof.
  split; [reflexivity|].
  apply (proj1 (proj2 (C7_fatal_errors tt) always_boom) boom).
  reflexivity.
Defined.

(** *** The selection rule *)

(** On trimmed texts the [elif] branch is never the one that decides. *)
Lemma select_after_strip (lang raw0 raw1 : str) :
  select lang (strip raw0) (strip raw1)
  = select_by_length lang (strip raw0) (strip raw1).
Proof.
  unfold select, select_by_length. rewrite !strip_idem.
  destruct (len (strip raw0) <? len (strip raw1)) eqn:E; [reflexivity|].
  destruct (str_eqb (strip raw1) []) eqn:E1; [reflexivity|].
  destruct (str_eqb (strip raw0) []) eqn:E0; [|reflexivity].
  exfalso. apply str_eqb_eq in E0. apply str_eqb_neq in E1.
  apply Z.ltb_ge in E. rewrite E0 in E.
  apply E1, len_zero. pose proof (len_nonneg (strip raw1)).
  change (len (@nil codepoint)) with 0 in E. lia.
Qed.

(** C10. For trimmed texts the condition of the second branch implies the
    condition of the first, so the two-branch rule and the single rule
    "pass 2 iff len(text1) > len(text0)" select the same language and
    text. *)
Theorem C10_two_branches_equal_length_rule (lang txt0 txt1 : str) :
  strip txt0 = txt0 ->
  strip txt1 = txt1 ->
  (strip txt1 <> [] /\ strip txt0 = [] -> len txt0 < len txt1)
  /\ select lang txt0 txt1 = select_by_length lang txt0 txt1.
Proof.
  intros H0 H1. split.
  - rewrite H0, H1. intros [Hn ->].
    pose proof (len_nonneg txt1). pose proof (len_zero txt1).
    change (len (@nil codepoint)) with 0.
    destruct (Z.eq_dec (len txt1) 0); [tauto | lia].
  - rewrite <- H0, <- H1. apply select_after_strip.
Qed.

Lemma C10_witness_short_retry :
  strip ka = ka
  /\ strip namaste = namaste
  /\ select (lit "hin") ka namaste = select_by_length (lit "hin") ka namaste
  /\ select (lit "hin") ka namaste = (lit "hin", namaste).
Proof.
  split; [reflexivity|]. split; [reflexivity|].
  split; [|reflexivity].
  apply (C10_two_branches_equal_length_rule (lit "hin") ka namaste);
    reflexivity.
Defined.

(** Without trimming the two rules differ: a one-blank first text against a
    one-letter second text. *)
Example select_untrimmed_differs :
  select (lit "hin") (lit " ") ka = (lit "hin", ka)
  /\ select_by_length (lit "hin") (lit " ") ka = (eng, lit " ").
Proof. split; reflexivity. Qed.

(** C2, as stated, fails: with an empty first pass and a second pass that
    would return text, the function calls the engine once, raises, and
    returns neither text. *)
Lemma C2_counterexample_empty_first_pass :
  blank_then_namaste tt None = Return (lit "  ")
  /\ strip (lit "  ") = []
  /\ (forall lang, blank_then_namaste tt (Some lang) = Return namaste)
  /\ strip namaste <> []
  /\ trace (ocr_image_with_smart_lang (Some blank_then_namaste) tt) = [None]
  /\ ~ (exists used detected breakdown,
          result (ocr_image_with_smart_lang (Some blank_then_namaste) tt)
          = Return (OcrOk namaste used detected breakdown)).
Proof.
  repeat split; try reflexivity.
  - discriminate.
  - intros (used & detected & breakdown & H). vm_compute in H. discriminate.
Qed.

(** C2, amended. Whenever a second pass is attempted and returns, the
    trimmed first-pass text is not empty, the language tried is the one
    suggested for its script, and pass 2 is selected (suggested language,
    second text) exactly when the second trimmed text is strictly longer;
    otherwise the first text and the default language are returned. *)
Theorem C2_selection_after_second_pass {image : Type}
  (tess : @engine image) (img : image) (raw0 raw1 lang : str) :
  tess img None = Return raw0 ->
  In (Some lang) (trace (ocr_image_with_smart_lang (Some tess) img)) ->
  tess img (Some lang) = Return raw1 ->
  let detected := script_of (detect_script_with_confidence (strip raw0)) in
  let breakdown := breakdown_of (detect_script_with_confidence (strip raw0)) in
  strip raw0 <> []
  /\ lang = PyDict.get TESS_LANG_SUGGEST detected eng
  /\ lang <> eng
  /\ ocr_image_with_smart_lang (Some tess) img
     = mkRun [None; Some lang]
         (Return (if len (strip raw0) <? len (strip raw1)
                  then OcrOk (strip raw1) lang detected breakdown
                  else OcrOk (strip raw0) eng detected breakdown)).
Proof.
  intros H0 Hin H1.
  destruct (second_pass_inv tess img raw0 lang H0 Hin)
    as (s & c & t & b & q & Hd & Hlang & Hl).
  cbv zeta. rewrite Hd. simpl script_of. simpl breakdown_of.
  subst lang.
  rewrite (ocr_retry_returns tess img _ _ _ _ _ _ _ H0 Hd Hl H1).
  cbv zeta. rewrite select_after_strip. unfold select_by_length.
  repeat split; auto.
  - intros E. rewrite E in Hd. discriminate Hd.
  - now destruct (len (strip raw0) <? len (strip raw1)).
Qed.

Lemma C2_witness_longer_retry :
  ka_then_tamil tt None = Return ka
  /\ ka_then_tamil tt (Some (lit "hin")) = Return (va ++ va)
  /\ ocr_image_with_smart_lang (Some ka_then_tamil) tt
     = mkRun [None; Some (lit "hin")]
         (Return (OcrOk (va ++ va) (lit "hin") (lit "Devanagari")
                    [(lit "Devanagari", 1)])).
Proof.
  split; [reflexivity|]. split; [reflexivity|].
  apply (C2_selection_after_second_pass ka_then_tamil tt ka (va ++ va)
           (lit "hin")).
  - reflexivity.
  - vm_compute. right; left; reflexivity.
  - reflexivity.
Defined.

(** *** What is reported *)

Section ReportFacts.
Import PyDict.
Context {image : Type}.
Variables (tess : @engine image) (img : image).

(** A success dict always stems from a first pass that returned, and its
    script and breakdown are those of the trimmed first-pass text. *)
Lemma ocr_ok_inv (text used ds : str) (b0 : dict Z) :
  result (ocr_image_with_smart_lang (Some tess) img)
  = Return (OcrOk text used ds b0) ->
  exists raw0,
    tess img None = Return raw0
    /\ ds = script_of (detect_script_with_confidence (strip raw0))
    /\ b0 = breakdown_of (detect_script_with_confidence (strip raw0))
    /\ ((text = strip raw0 /\ used = eng)
        \/ exists raw1, tess img (Some used) = Return raw1
                        /\ text = strip raw1).
Proof.
  intros Hr.
  destruct (tess img None) as [raw0|e] eqn:H0.
  2:{ rewrite (ocr_first_pass_raises tess img e H0) in Hr. discriminate. }
  exists raw0. split; [reflexivity|].
  destruct (detect_script_with_confidence (strip raw0))
    as [s c t b|s c t b q] eqn:Hd.
  { rewrite (ocr_unpack_raises tess img _ _ _ _ _ H0 Hd) in Hr.
    discriminate. }
  destruct (str_eqb (get TESS_LANG_SUGGEST s eng) eng) eqn:El.
  { apply str_eqb_eq in El.
    rewrite (ocr_no_retry tess img _ _ _ _ _ _ H0 Hd El) in Hr.
    injection Hr as <- <- <- <-. cbn [script_of breakdown_of]; auto. }
  apply str_eqb_neq in El.
  destruct (tess img (Some (get TESS_LANG_SUGGEST s eng)))
    as [raw1|e] eqn:H1.
  - rewrite (ocr_retry_returns tess img _ _ _ _ _ _ _ H0 Hd El H1) in Hr.
    cbv zeta in Hr. rewrite select_after_strip in Hr.
    unfold select_by_length in Hr.
    destruct (len (strip raw0) <? len (strip raw1));
      cbn [fst snd] in Hr; injection Hr as <- <- <- <-;
      cbn [script_of breakdown_of]; repeat split; eauto.
  - rewrite (ocr_retry_raises tess img _ _ _ _ _ _ _ H0 Hd El H1) in Hr.
    injection Hr as <- <- <- <-.
    cbn [script_of breakdown_of]; auto.
Qed.

End ReportFacts.

(** C4. Every OCR response carries, as [detected_script], the script
    classified on the trimmed first-pass text (the value the selector
    returned, not a new detection), while its breakdown and confidence are
    those of a new classification of the final text. *)
Theorem C4_script_of_first_pass_breakdown_of_final_text {image : Type}
  (pytesseract : option (@engine image)) (upload : option (outcome image))
  (calls : list (option str)) (code : Z) (text used_lang detected_script : str)
  (breakdown : PyDict.dict Z) (confidence : Q) :
  api_ocr pytesseract upload
  = mkRun calls
      (Return (Jsonify code
                 (OcrBody text used_lang detected_script breakdown
                    confidence))) ->
  exists tess img raw0 breakdown0,
    pytesseract = Some tess
    /\ upload = Some (Return img)
    /\ tess img None = Return raw0
    /\ result (ocr_image_with_smart_lang (Some tess) img)
       = Return (OcrOk text used_lang detected_script breakdown0)
    /\ detected_script
       = script_of (detect_script_with_confidence (strip raw0))
    /\ breakdown0
       = breakdown_of (detect_script_with_confidence (strip raw0))
    /\ breakdown = breakdown_of (detect_script_with_confidence text)
    /\ Some confidence
       = confidence_of (detect_script_with_confidence text).
Proof.
  unfold api_ocr.
  destruct upload as [[img|e]|]; destruct pytesseract as [tess|];
    try (unfold ret; intros [= ]; fail).
  unfold bind.
  destruct (result (ocr_image_with_smart_lang (Some tess) img))
    as [[txt used ds b0|err]|e] eqn:Hr; try (unfold ret; intros [= ]; fail).
  unfold lift, ret. cbn [result trace].
  destruct (detect_script_with_confidence txt) as [s c t b|s c t b q] eqn:Hd;
    cbn [unpack5]; intros [= _ _ <- <- <- <- <-].
  destruct (ocr_ok_inv tess img _ _ _ _ Hr) as (raw0 & H0 & Hs & Hb & _).
  exists tess, img, raw0, b0. rewrite Hd. simpl. repeat split; auto.
Qed.

Lemma C4_witness_script_and_breakdown_differ :
  api_ocr (Some ka_then_tamil) (Some (Return tt))
  = mkRun [None; Some (lit "hin")]
      (Return (Jsonify 200
                 (OcrBody (va ++ va) (lit "hin") (lit "Devanagari")
                    [(lit "Tamil", 2)] (2 # 2))))
  /\ exists tess img raw0 breakdown0,
       Some ka_then_tamil = Some tess
       /\ Some (Return tt) = Some (Return img)
       /\ tess img None = Return raw0
       /\ result (ocr_image_with_smart_lang (Some tess) img)
          = Return (OcrOk (va ++ va) (lit "hin") (lit "Devanagari")
                      breakdown0)
       /\ lit "Devanagari"
          = script_of (detect_script_with_confidence (strip raw0))
       /\ breakdown0
          = breakdown_of (detect_script_with_confidence (strip raw0))
       /\ [(lit "Tamil", 2)]
          = breakdown_of (detect_script_with_confidence (va ++ va))
       /\ Some (2 # 2)%Q
          = confidence_of (detect_script_with_confidence (va ++ va)).
Proof.
  split; [reflexivity|].
  apply (C4_script_of_first_pass_breakdown_of_final_text
           (Some ka_then_tamil) (Some (Return tt))
           [None; Some (lit "hin")] 200).
  reflexivity.
Defined.

(** When the final text has no catalog character the handler's own
    unpacking raises after both passes, and no response is built. *)
Example api_ocr_unrecognised_final_text :
  ocr_image_with_smart_lang (Some ka_then_digits) tt
  = mkRun [None; Some (lit "hin")]
      (Return (OcrOk digits (lit "hin") (lit "Devanagari")
                 [(lit "Devanagari", 1)]))
  /\ api_ocr (Some ka_then_digits) (Some (Return tt))
     = mkRun [None; Some (lit "hin")] (Raise unpack_error).
Proof. split; reflexivity. Qed.

(** ** TransliterationResolver *)

Section ResolverFacts.
Variables (process : backend) (src tgt text : str).

Local Ltac run_resolver :=
  unfold perform_transliteration, bind, lift, call, ret;
  cbn [trace result app unpack5 negb].

Lemma resolve_unavailable :
  perform_transliteration None src tgt text = mkRun [] (Raise not_installed).
Proof. reflexivity. Qed.

(** An explicit hint is passed on as it is; the classifier is not
    consulted. *)
Lemma resolve_explicit_hint :
  src <> ISO ->
  perform_transliteration (Some process) src tgt text
  = mkRun [(src, tgt, text)] (process src tgt text).
Proof.
  intros H. apply str_eqb_neq in H. run_resolver. rewrite H.
  cbn [trace result app]. now destruct (process src tgt text).
Qed.

(** With the ["ISO"] hint and recognised text the detected script is the
    source passed on: a native script replaces the hint, and a detected
    ["ISO"] leaves it as it was. *)
Lemma resolve_iso_hint (s : str) (c t : Z) (b : PyDict.dict Z) (q : Q) :
  detect_script_with_confidence text = Tuple5 s c t b q ->
  perform_transliteration (Some process) ISO tgt text
  = mkRun [(s, tgt, text)] (process s tgt text).
Proof.
  intros Hd. run_resolver. rewrite str_eqb_refl.
  cbn [trace result app]. rewrite Hd. cbn [trace result app unpack5].
  destruct (str_eqb s ISO) eqn:E; cbn [negb trace result app].
  - apply str_eqb_eq in E; subst s. now destruct (process ISO tgt text).
  - now destruct (process s tgt text).
Qed.

End ResolverFacts.

(** With the ["ISO"] hint and text that has no catalog character the
    unpacking of the 4-tuple raises before the backend is called. *)
Lemma resolve_iso_hint_unrecognised (process : backend) (tgt text : str) :
  unrecognised text ->
  perform_transliteration (Some process) ISO tgt text
  = mkRun [] (Raise unpack_error).
Proof.
  intros H. unfold perform_transliteration, bind, lift, call, ret.
  rewrite str_eqb_refl. cbn [trace result app].
  now rewrite (detect_unrecognised text H).
Qed.

(** C8. With the ["ISO"] hint and the text "12345", whatever the backend
    and the target, nothing is passed to the backend: the function ends
    with [ValueError] and an empty list of calls. *)
Theorem C8_iso_hint_digits_never_reach_backend (process : backend)
  (tgt : str) :
  perform_transliteration (Some process) ISO tgt digits
  = mkRun [] (Raise unpack_error).
Proof. apply resolve_iso_hint_unrecognised, digits_unrecognised. Qed.

(** ** Scenarios *)

Example detect_namaste :
  detect_script_with_confidence namaste
  = Tuple5 (lit "Devanagari") 6 6 [(lit "Devanagari", 6)] (6 # 6).
Proof. reflexivity. Qed.

Example detect_hello :
  detect_script_with_confidence (lit "hello")
  = Tuple5 ISO 5 5 [(ISO, 5)] (5 # 5).
Proof. reflexivity. Qed.

Example detect_tie :
  detect_script_with_confidence tie
  = Tuple5 (lit "Devanagari") 1 2 [(lit "Devanagari", 1); (ISO, 1)] (1 # 2).
Proof. reflexivity. Qed.

(** [resolve("ISO", "Tamil", <Tamil text>)]: the backend is called with
    Tamil as the source. *)
Example resolve_upgrades_iso_hint :
  perform_transliteration (Some echo_source) ISO (lit "Tamil") (va ++ va)
  = mkRun [(lit "Tamil", lit "Tamil", va ++ va)] (Return (lit "Tamil")).
Proof. reflexivity. Qed.

(** An explicit hint, even a wrong one, is kept. *)
Example resolve_keeps_explicit_hint :
  perform_transliteration (Some echo_source) (lit "Bengali") (lit "Tamil")
    namaste
  = mkRun [(lit "Bengali", lit "Tamil", namaste)] (Return (lit "Bengali")).
Proof. reflexivity. Qed.


(* ================================================================== *)
(** * Further properties of the classifier *)
(* ================================================================== *)

Section CountFacts.
Import PyDict.

Lemma count_nonneg (p : pattern) (text : str) : 0 <= count p text.
Proof. apply len_nonneg. Qed.

Lemma count_cons (p : pattern) (c : codepoint) (text : str) :
  count p (c :: text) = (if matches p c then 1 else 0) + count p text.
Proof.
  unfold count, findall, len. cbn [filter].
  destruct (matches p c); cbn [List.length]; lia.
Qed.

Lemma count_app (p : pattern) (a b : str) :
  count p (a ++ b) = count p a + count p b.
Proof.
  unfold count, findall, len.
  rewrite filter_app, length_app. lia.
Qed.

Lemma count_perm (p : pattern) (a b : str) :
  Permutation a b -> count p a = count p b.
Proof.
  intros H; induction H; rewrite ?count_cons.
  - reflexivity.
  - lia.
  - destruct (matches p x), (matches p y); lia.
  - congruence.
Qed.

Lemma count_le_len (p : pattern) (text : str) : count p text <= len text.
Proof.
  induction text as [|c t IH]; [unfold count, len; simpl; lia|].
  rewrite count_cons. unfold len in *; cbn [List.length].
  destruct (matches p c); lia.
Qed.

(** The item of an entry is read off its count. *)
Lemma item_by_count (text : str) (e : pattern * str) :
  item text e
  = if 0 <? count (fst e) text then [(snd e, count (fst e) text)] else [].
Proof.
  unfold item. destruct (truthy (findall (fst e) text)) eqn:E.
  - apply truthy_len in E. fold (count (fst e) text) in E.
    apply Z.ltb_lt in E. now rewrite E.
  - destruct (0 <? count (fst e) text) eqn:E'; [|reflexivity].
    apply Z.ltb_lt in E'. apply truthy_len in E'. congruence.
Qed.

(** The breakdown, entry by entry: the catalog entries with a positive
    count, in catalog order, each with its count. *)
Lemma tally_filter_map (text : str) (ranges : list (pattern * str)) :
  tally text ranges
  = map (fun e => (snd e, count (fst e) text))
      (filter (fun e => 0 <? count (fst e) text) ranges).
Proof.
  unfold tally. induction ranges as [|e ranges IH]; [reflexivity|].
  simpl. rewrite item_by_count, IH.
  now destruct (0 <? count (fst e) text).
Qed.

Lemma tally_ext (a b : str) (ranges : list (pattern * str)) :
  (forall e, In e ranges -> count (fst e) a = count (fst e) b) ->
  tally a ranges = tally b ranges.
Proof.
  intros H. unfold tally. induction ranges as [|e ranges IH]; [reflexivity|].
  simpl. rewrite !item_by_count, (H e) by now left.
  f_equal. apply IH. intros; apply H; now right.
Qed.

(** Two texts with the same counts in every catalog range are classified
    alike. *)
Lemma detect_ext (a b : str) :
  (forall e, In e UNICODE_RANGES -> count (fst e) a = count (fst e) b) ->
  detect_script_with_confidence a = detect_script_with_confidence b.
Proof.
  intros H. rewrite !detect_unfold. now rewrite (tally_ext a b _ H).
Qed.

(** The sum of all counts, zero counts included. *)
Lemma sum_values_tally (text : str) (ranges : list (pattern * str)) :
  sum_values (tally text ranges)
  = fold_right (fun e acc => count (fst e) text + acc) 0 ranges.
Proof.
  unfold tally. induction ranges as [|e ranges IH]; [reflexivity|].
  simpl flat_map. rewrite sum_values_app, IH, item_by_count. simpl.
  destruct (0 <? count (fst e) text) eqn:E.
  - unfold sum_values; simpl. lia.
  - apply Z.ltb_ge in E. pose proof (count_nonneg (fst e) text).
    unfold sum_values; simpl. lia.
Qed.

Lemma total_matched_tally (text : str) :
  total_matched_of (detect_script_with_confidence text)
  = sum_values (tally text UNICODE_RANGES).
Proof.
  rewrite detect_unfold. cbv zeta.
  destruct (tally text UNICODE_RANGES); reflexivity.
Qed.

Lemma breakdown_tally (text : str) :
  breakdown_of (detect_script_with_confidence text)
  = tally text UNICODE_RANGES.
Proof.
  rewrite detect_unfold. cbv zeta.
  destruct (tally text UNICODE_RANGES); reflexivity.
Qed.

End CountFacts.

(** ** The catalog ranges do not overlap *)

Section Disjoint.
Import PyDict.

Local Ltac decide_leb :=
  repeat match goal with
  | |- context [?a <=? ?b] =>
      first [ rewrite (proj2 (Z.leb_le a b)) by lia
            | rewrite (proj2 (Z.leb_gt a b)) by lia ]
  end.

(** How many catalog ranges a character falls in: one if it is recognised,
    none otherwise. *)
Lemma hit_count (c : codepoint) :
  fold_right (fun e acc => (if matches (fst e) c then 1 else 0) + acc) 0
    UNICODE_RANGES
  = if recognised c then 1 else 0.
Proof.
  unfold recognised, UNICODE_RANGES, ISO, matches.
  cbn [fold_right existsb fst snd].
  assert (c < 0x41 \/ 0x41 <= c <= 0x5A \/ 0x5A < c < 0x61
          \/ 0x61 <= c <= 0x7A \/ 0x7A < c < 0x0900
          \/ 0x0900 <= c <= 0x097F \/ 0x0980 <= c <= 0x09FF
          \/ 0x0A00 <= c <= 0x0A7F \/ 0x0A80 <= c <= 0x0AFF
          \/ 0x0B00 <= c <= 0x0B7F \/ 0x0B80 <= c <= 0x0BFF
          \/ 0x0C00 <= c <= 0x0C7F \/ 0x0C80 <= c <= 0x0CFF
          \/ 0x0D00 <= c <= 0x0D7F \/ 0x0D80 <= c <= 0x0DFF
          \/ 0x0DFF < c) as H by lia.
  repeat destruct H as [H|H]; decide_leb; reflexivity.
Qed.

Lemma space_not_recognised (c : codepoint) :
  is_space c = true -> recognised c = false.
Proof.
  unfold is_space.
  rewrite !orb_true_iff, !andb_true_iff, !Z.leb_le, !Z.eqb_eq. intros H.
  unfold recognised, UNICODE_RANGES, ISO, matches.
  cbn [existsb fst snd].
  repeat destruct H as [H|H]; decide_leb; reflexivity.
Qed.

Lemma matches_recognised (e : pattern * str) (c : codepoint) :
  In e UNICODE_RANGES -> matches (fst e) c = true -> recognised c = true.
Proof.
  intros He Hm. unfold recognised. apply existsb_exists. eauto.
Qed.

Lemma hits_zero_one (ranges : list (pattern * str)) (c : codepoint) :
  0 <= fold_right (fun e acc => (if matches (fst e) c then 1 else 0) + acc) 0
         ranges.
Proof.
  induction ranges as [|e r IH]; simpl; [lia|].
  destruct (matches (fst e) c); lia.
Qed.

(** Two hits in a list without repetition count at least two. *)
Lemma two_hits (ranges : list (pattern * str)) (c : codepoint)
  (e1 e2 : pattern * str) :
  In e1 ranges -> In e2 ranges -> e1 <> e2 ->
  matches (fst e1) c = true -> matches (fst e2) c = true ->
  2 <= fold_right (fun e acc => (if matches (fst e) c then 1 else 0) + acc) 0
         ranges.
Proof.
  assert (forall (e : pattern * str) l, In e l -> matches (fst e) c = true ->
            1 <= fold_right
                   (fun e acc => (if matches (fst e) c then 1 else 0) + acc)
                   0 l) as one.
  { intros e l. induction l as [|x l IH]; simpl; [tauto|].
    intros [->|H] Hm.
    - rewrite Hm. pose proof (hits_zero_one l c). lia.
    - specialize (IH H Hm). destruct (matches (fst x) c); lia. }
  induction ranges as [|x l IH]; simpl; [tauto|].
  intros [->|H1] [->|H2] Hne M1 M2.
  - congruence.
  - rewrite M1. pose proof (one _ _ H2 M2). lia.
  - rewrite M2. pose proof (one _ _ H1 M1). lia.
  - specialize (IH H1 H2 Hne M1 M2). destruct (matches (fst x) c); lia.
Qed.

(** A character matches at most one catalog entry. *)
Lemma matches_unique (c : codepoint) (e1 e2 : pattern * str) :
  In e1 UNICODE_RANGES -> In e2 UNICODE_RANGES ->
  matches (fst e1) c = true -> matches (fst e2) c = true ->
  e1 = e2.
Proof.
  intros H1 H2 M1 M2.
  assert ({e1 = e2} + {e1 <> e2}) as [E|E].
  { repeat decide equality; apply Z.eq_dec. }
  - exact E.
  - pose proof (two_hits _ c e1 e2 H1 H2 E M1 M2) as H.
    rewrite hit_count in H. destruct (recognised c); lia.
Qed.

(** The sum of all counts is the number of recognised characters. *)
Lemma total_count_cons (ranges : list (pattern * str)) (c : codepoint)
  (text : str) :
  fold_right (fun e acc => count (fst e) (c :: text) + acc) 0 ranges
  = fold_right (fun e acc => (if matches (fst e) c then 1 else 0) + acc) 0
      ranges
    + fold_right (fun e acc => count (fst e) text + acc) 0 ranges.
Proof.
  induction ranges as [|e r IH]; simpl; [reflexivity|].
  rewrite count_cons, IH. lia.
Qed.

Lemma total_count_recognised (text : str) :
  fold_right (fun e acc => count (fst e) text + acc) 0 UNICODE_RANGES
  = len (filter recognised text).
Proof.
  induction text as [|c t IH].
  - reflexivity.
  - rewrite total_count_cons, hit_count, IH. cbn [filter].
    destruct (recognised c); unfold len; cbn [List.length]; lia.
Qed.

Lemma count_filter_recognised (e : pattern * str) (text : str) :
  In e UNICODE_RANGES ->
  count (fst e) (filter recognised text) = count (fst e) text.
Proof.
  intros He. induction text as [|c t IH]; [reflexivity|].
  cbn [filter]. destruct (recognised c) eqn:E.
  - now rewrite !count_cons, IH.
  - rewrite count_cons, IH.
    destruct (matches (fst e) c) eqn:M; [|lia].
    rewrite (matches_recognised e c He M) in E. discriminate.
Qed.

Lemma count_lstrip (e : pattern * str) (s : str) :
  In e UNICODE_RANGES -> count (fst e) (lstrip s) = count (fst e) s.
Proof.
  intros He. induction s as [|c s IH]; [reflexivity|].
  cbn [lstrip]. destruct (is_space c) eqn:E; [|reflexivity].
  rewrite count_cons, IH.
  destruct (matches (fst e) c) eqn:M; [|lia].
  pose proof (space_not_recognised c E).
  pose proof (matches_recognised e c He M). congruence.
Qed.

Lemma count_strip (e : pattern * str) (s : str) :
  In e UNICODE_RANGES -> count (fst e) (strip s) = count (fst e) s.
Proof.
  intros He. unfold strip, rstrip.
  rewrite (count_perm _ _ _ (Permutation_sym (Permutation_rev _))).
  rewrite count_lstrip by exact He.
  rewrite (count_perm _ _ _ (Permutation_sym (Permutation_rev _))).
  now apply count_lstrip.
Qed.

End Disjoint.

(** ** What the 5-tuple says *)

Section TupleFacts.
Import PyDict.

Lemma catalog_nodup : NoDup UNICODE_RANGES.
Proof. apply (NoDup_map_inv snd), catalog_names_nodup. Qed.

Lemma sum_values_positive (d : dict Z) :
  (forall x, In x d -> 0 < snd x) -> d <> [] -> 0 < sum_values d.
Proof.
  destruct d as [|x d]; [congruence|]. intros Hpos _.
  pose proof (sum_values_lower _ x Hpos (or_introl eq_refl)).
  pose proof (Hpos x (or_introl eq_refl)). lia.
Qed.

(** In a dict of positive counts with two or more items, every count is
    strictly below the sum. *)
Lemma sum_values_strict (d : dict Z) (x : str * Z) :
  (forall y, In y d -> 0 < snd y) -> In x d -> (2 <= List.length d)%nat ->
  snd x < sum_values d.
Proof.
  intros Hpos Hin Hlen.
  destruct (in_split _ _ Hin) as (l1 & l2 & ->).
  rewrite sum_values_app. change (x :: l2) with ([x] ++ l2).
  rewrite sum_values_app. unfold sum_values at 2; simpl.
  assert (forall l, (forall y, In y l -> In y (l1 ++ x :: l2)) ->
                    l <> [] -> 0 < sum_values l) as pos.
  { intros l Hl. apply sum_values_positive. intros y Hy. apply Hpos; auto. }
  assert (forall l, (forall y, In y l -> In y (l1 ++ x :: l2)) ->
                    0 <= sum_values l) as nonneg.
  { intros l Hl. destruct l as [|z l]; [unfold sum_values; simpl; lia|].
    assert (0 < sum_values (z :: l)); [|lia]. apply pos; [exact Hl|].
    discriminate. }
  assert (forall y, In y l1 -> In y (l1 ++ x :: l2)) as H1
    by (intros; apply in_or_app; auto).
  assert (forall y, In y l2 -> In y (l1 ++ x :: l2)) as H2
    by (intros; apply in_or_app; simpl; auto).
  pose proof (nonneg l1 H1). pose proof (nonneg l2 H2).
  rewrite length_app in Hlen. simpl in Hlen.
  destruct l1 as [|a l1].
  - destruct l2 as [|a l2]; [simpl in Hlen; lia|].
    assert (0 < sum_values (a :: l2)) by (apply pos; [exact H2|discriminate]).
    lia.
  - assert (0 < sum_values (a :: l1)) by (apply pos; [exact H1|discriminate]).
    lia.
Qed.

Lemma filter_single {A} (g : A -> bool) (l : list A) (x : A) :
  NoDup l -> In x l -> g x = true ->
  (forall e, In e l -> e <> x -> g e = false) ->
  filter g l = [x].
Proof.
  induction l as [|a l IH]; simpl; [tauto|].
  intros Hnd Hin Hx Hothers. inversion Hnd as [|? ? Hna Hnd']; subst.
  destruct Hin as [->|Hin].
  - rewrite Hx. f_equal.
    assert (forall e, In e l -> g e = false) as Hall.
    { intros e He. apply Hothers; [now right|]. intros ->. contradiction. }
    clear - Hall. induction l as [|b l IH]; simpl; [reflexivity|].
    rewrite Hall by now left. apply IH. intros; apply Hall; now right.
  - rewrite (Hothers a) by (auto; intros ->; contradiction).
    apply IH; auto.
Qed.

Lemma count_all (p : pattern) (text : str) :
  (forall c, In c text -> matches p c = true) -> count p text = len text.
Proof.
  intros H. induction text as [|c t IH]; [reflexivity|].
  rewrite count_cons, H by now left.
  rewrite IH by (intros; apply H; now right).
  unfold len; cbn [List.length]; lia.
Qed.

Lemma count_none (p : pattern) (text : str) :
  (forall c, In c text -> matches p c = false) -> count p text = 0.
Proof.
  intros H. induction text as [|c t IH]; [reflexivity|].
  rewrite count_cons, H by now left.
  rewrite IH by (intros; apply H; now right). reflexivity.
Qed.

(** The entry of a catalog script in the breakdown is its count; a script
    without matches reads as 0. *)
Lemma get_tally (text : str) (p : pattern) (n : str) :
  In (p, n) UNICODE_RANGES ->
  get (tally text UNICODE_RANGES) n 0 = count p text.
Proof.
  intros Hin. destruct (0 <? count p text) eqn:E.
  - apply get_present.
    + apply tally_keys_nodup, catalog_names_nodup.
    + rewrite tally_filter_map. apply in_map_iff. exists (p, n).
      split; [reflexivity|]. apply filter_In. auto.
  - apply Z.ltb_ge in E. pose proof (count_nonneg p text).
    replace (count p text) with 0 by lia.
    apply get_absent. intros Hk.
    unfold keys in Hk. apply in_map_iff in Hk as ([k v] & Hkn & Hkv).
    simpl in Hkn; subst k.
    destruct (tally_in _ _ _ _ Hkv) as (p' & Hp' & -> & Hpos).
    assert ((p', n) = (p, n)) as [= ->]; [|lia].
    pose proof catalog_names_nodup as Hnd.
    destruct (In_nth_error _ _ Hin) as [i Hi].
    destruct (In_nth_error _ _ Hp') as [j Hj].
    assert (i = j); [|congruence].
    apply (proj1 (NoDup_nth_error _) Hnd).
    + apply nth_error_Some. rewrite nth_error_map, Hi. discriminate.
    + now rewrite !nth_error_map, Hi, Hj.
Qed.

End TupleFacts.

(** X1. On every text with at least one catalog character the function
    returns five values: the total is the sum of the breakdown, the top
    count is the winner's entry and the largest entry, and the confidence
    is top/total, above 0 and at most 1. *)
Theorem X1_five_tuple_invariants (text : str) :
  ~ unrecognised text ->
  exists s c t b q,
    detect_script_with_confidence text = Tuple5 s c t b q
    /\ t = PyDict.sum_values b
    /\ PyDict.get b s 0 = c
    /\ (forall x, In x b -> snd x <= c)
    /\ 0 < c <= t
    /\ q = divide c t
    /\ (0 < q)%Q /\ (q <= 1)%Q.
Proof.
  intros H.
  destruct (detect_script_with_confidence text) as [s c t b|s c t b q] eqn:E.
  - apply detect_tuple4_inv in E. tauto.
  - exists s, c, t, b, q. split; [reflexivity|].
    destruct (detect_tuple5_invariants _ _ _ _ _ _ E)
      as (_ & Ht & Hg & Hc & Hmax & Hq & Hq0 & Hq1).
    repeat split; auto; lia.
Qed.

Lemma X1_witness_tie :
  ~ unrecognised tie
  /\ exists s c t b q,
       detect_script_with_confidence tie = Tuple5 s c t b q
       /\ t = PyDict.sum_values b
       /\ PyDict.get b s 0 = c
       /\ (forall x, In x b -> snd x <= c)
       /\ 0 < c <= t
       /\ q = divide c t
       /\ (0 < q)%Q /\ (q <= 1)%Q.
Proof.
  assert (~ unrecognised tie) as H
    by (intros H; apply unrecognisedb_spec in H; discriminate H).
  split; [exact H|]. apply (X1_five_tuple_invariants tie H).
Defined.

(** X2. The catalog ranges do not overlap, so no character is counted
    twice: the total is the number of characters of the text that fall in
    some range, and never exceeds the length of the text. *)
Theorem X2_total_counts_recognised_characters (text : str) :
  total_matched_of (detect_script_with_confidence text)
  = len (filter recognised text)
  /\ total_matched_of (detect_script_with_confidence text) <= len text.
Proof.
  rewrite total_matched_tally, sum_values_tally, total_count_recognised.
  split; [reflexivity|].
  unfold len. pose proof (filter_length_le recognised text). lia.
Qed.

(** X3. A non-empty text written in one catalog script only is classified
    as that script, with every character counted, a one-entry breakdown
    and confidence 1. *)
Theorem X3_single_script_text (text : str) (p : pattern) (n : str) :
  In (p, n) UNICODE_RANGES ->
  text <> [] ->
  (forall c, In c text -> matches p c = true) ->
  exists q,
    detect_script_with_confidence text
    = Tuple5 n (len text) (len text) [(n, len text)] q
    /\ (q == 1)%Q.
Proof.
  intros Hin Hne Hall.
  assert (0 < len text) as Hlen.
  { destruct text; [congruence|]. unfold len; simpl; lia. }
  assert (count p text = len text) as Hp by now apply count_all.
  assert (tally text UNICODE_RANGES = [(n, len text)]) as Ht.
  { rewrite tally_filter_map.
    rewrite (filter_single _ _ (p, n) catalog_nodup Hin).
    - simpl. now rewrite Hp.
    - simpl. rewrite Hp. now apply Z.ltb_lt.
    - intros e He Hne'. apply Z.ltb_ge.
      rewrite count_none; [lia|]. intros c Hc.
      destruct (matches (fst e) c) eqn:M; [|reflexivity].
      exfalso. apply Hne'.
      apply (matches_unique c e (p, n) He Hin M). now apply Hall. }
  rewrite detect_unfold. cbv zeta. rewrite Ht.
  unfold PyDict.max_item, PyDict.sum_values. simpl.
  rewrite Z.add_0_r. apply Z.ltb_lt in Hlen. rewrite Hlen.
  eexists. split; [reflexivity|].
  apply Z.ltb_lt in Hlen. unfold divide, Qeq. simpl.
  rewrite Z2Pos.id by lia. lia.
Qed.

Lemma X3_witness_namaste :
  exists q,
    detect_script_with_confidence namaste
    = Tuple5 (lit "Devanagari") 6 6 [(lit "Devanagari", 6)] q
    /\ (q == 1)%Q.
Proof.
  apply (X3_single_script_text namaste [(0x0900, 0x097F)] (lit "Devanagari")).
  - left; reflexivity.
  - discriminate.
  - intros c Hc. simpl in Hc.
    repeat destruct Hc as [<-|Hc]; try reflexivity. destruct Hc.
Defined.

(** X4. The confidence is 1 exactly when the breakdown has a single entry,
    that is when only one script occurs in the text. *)
Theorem X4_confidence_one_iff_one_script (text s : str) (c t : Z)
  (b : PyDict.dict Z) (q : Q) :
  detect_script_with_confidence text = Tuple5 s c t b q ->
  ((q == 1)%Q <-> b = [(s, c)]).
Proof.
  intros E.
  destruct (detect_tuple5_invariants _ _ _ _ _ _ E)
    as (Hb & Ht & Hg & Hc & Hmax & Hq & _ & _).
  assert (In (s, c) b) as Hin.
  { revert E. rewrite detect_unfold. cbv zeta. rewrite <- Hb.
    destruct b as [|kv rest]; [discriminate|].
    intros [= <- <- _ _]. pose proof (max_item_in rest kv) as H.
    now destruct (PyDict.max_item kv rest). }
  assert ((q == 1)%Q <-> c = t) as ->.
  { subst q. unfold divide, Qeq. simpl. rewrite Z2Pos.id by lia. lia. }
  split.
  - intros <-.
    destruct b as [|x [|y b]].
    + destruct Hin.
    + destruct Hin as [->|[]]. reflexivity.
    + exfalso.
      assert (snd (s, c) < PyDict.sum_values (x :: y :: b)).
      { apply sum_values_strict; [|exact Hin|simpl; lia].
        intros z Hz. apply (tally_positive text UNICODE_RANGES).
        now rewrite <- Hb. }
      simpl in *. lia.
  - intros ->. subst t. unfold PyDict.sum_values. simpl. lia.
Qed.

Lemma X4_witness_namaste_and_tie :
  ((6 # 6 == 1)%Q <-> [(lit "Devanagari", 6)] = [(lit "Devanagari", 6)])
  /\ ((1 # 2 == 1)%Q
      <-> [(lit "Devanagari", 1); (ISO, 1)] = [(lit "Devanagari", 1)]).
Proof.
  split.
  - apply (X4_confidence_one_iff_one_script namaste (lit "Devanagari") 6 6).
    reflexivity.
  - apply (X4_confidence_one_iff_one_script tie (lit "Devanagari") 1 2).
    reflexivity.
Defined.

(** X5. The breakdown lists, in catalog order, exactly the catalog scripts
    with at least one character in the text, each with its number of
    characters; a script with no match has no entry. *)
Theorem X5_breakdown_is_positive_counts_in_catalog_order (text : str) :
  breakdown_of (detect_script_with_confidence text)
  = map (fun e => (snd e, count (fst e) text))
      (filter (fun e => 0 <? count (fst e) text) UNICODE_RANGES).
Proof. rewrite breakdown_tally. apply tally_filter_map. Qed.

(** X6. The classification does not depend on the order of the
    characters. *)
Theorem X6_detect_ignores_order (a b : str) :
  Permutation a b ->
  detect_script_with_confidence a = detect_script_with_confidence b.
Proof. intros H. apply detect_ext. intros e _. now apply count_perm. Qed.

Lemma X6_witness_tie_reversed :
  Permutation tie (rev tie)
  /\ detect_script_with_confidence tie
     = detect_script_with_confidence (rev tie).
Proof.
  assert (Permutation tie (rev tie)) as H by apply perm_swap.
  split; [exact H|]. apply (X6_detect_ignores_order tie (rev tie) H).
Defined.

(** X7. Characters outside every catalog range (digits, punctuation,
    blanks, other scripts) do not influence the result: removing them
    leaves it unchanged. *)
Theorem X7_detect_ignores_unrecognised_characters (text : str) :
  detect_script_with_confidence (filter recognised text)
  = detect_script_with_confidence text.
Proof.
  apply detect_ext. intros e He. now apply count_filter_recognised.
Qed.

(** X8. Trimming does not change the classification: the whitespace that
    [strip] removes is in no catalog range. *)
Theorem X8_detect_ignores_trimming (text : str) :
  detect_script_with_confidence (strip text)
  = detect_script_with_confidence text.
Proof. apply detect_ext. intros e He. now apply count_strip. Qed.

(** X9. Counts add up over concatenation: for every script name the entry
    of [a ++ b] (0 when absent) is the sum of the entries of [a] and [b],
    and so is the total. *)
Theorem X9_counts_add_over_concatenation (a b n : str) :
  PyDict.get (breakdown_of (detect_script_with_confidence (a ++ b))) n 0
  = PyDict.get (breakdown_of (detect_script_with_confidence a)) n 0
    + PyDict.get (breakdown_of (detect_script_with_confidence b)) n 0
  /\ total_matched_of (detect_script_with_confidence (a ++ b))
     = total_matched_of (detect_script_with_confidence a)
       + total_matched_of (detect_script_with_confidence b).
Proof.
  split.
  - rewrite !breakdown_tally.
    destruct (in_dec (list_eq_dec Z.eq_dec) n (map snd UNICODE_RANGES))
      as [Hin|Hout].
    + apply in_map_iff in Hin as ([p n'] & Hn & Hin). simpl in Hn; subst n'.
      rewrite !(get_tally _ p n Hin). apply count_app.
    + rewrite !get_absent; [reflexivity| | |];
        intros Hk; apply Hout; eapply tally_keys_incl; exact Hk.
  - rewrite !total_matched_tally, !sum_values_tally, !total_count_recognised.
    rewrite filter_app. unfold len. rewrite length_app. lia.
Qed.


(* ================================================================== *)
(** * Further properties of the selector *)
(* ================================================================== *)

Section SuggestFacts.
Import PyDict.

(** Every catalog script has its own Tesseract language; only ["ISO"] maps
    to the default one. *)
Lemma suggest_default_iff (p : pattern) (n : str) :
  In (p, n) UNICODE_RANGES ->
  (get TESS_LANG_SUGGEST n eng = eng <-> n = ISO).
Proof.
  intros H. simpl in H.
  repeat destruct H as [[= <- <-]|H]; try destruct H;
    vm_compute; split; intros E; try reflexivity; discriminate E.
Qed.

Lemma get_in_values {V} (d : dict V) (k : str) (v : V) :
  get d k v = v \/ In (get d k v) (values d).
Proof.
  induction d as [|[k' v'] d IH]; simpl; [now left|].
  destruct (str_eqb k' k); [now right; left|].
  destruct IH; [now left | now right; right].
Qed.

(** The winner of a 5-tuple is a catalog script, with its count. *)
Lemma winner_in_catalog (text s : str) (c t : Z) (b : dict Z) (q : Q) :
  detect_script_with_confidence text = Tuple5 s c t b q ->
  exists p, In (p, s) UNICODE_RANGES /\ c = count p text /\ 0 < c.
Proof.
  rewrite detect_unfold. cbv zeta.
  destruct (tally text UNICODE_RANGES) as [|kv rest] eqn:E; [discriminate|].
  intros [= <- <- _ _ _].
  pose proof (max_item_in rest kv) as Hin. rewrite <- E in Hin.
  destruct (max_item kv rest) as [k v]. now apply tally_in in Hin.
Qed.

Lemma tuple5_recognised (text s : str) (c t : Z) (b : dict Z) (q : Q) :
  detect_script_with_confidence text = Tuple5 s c t b q ->
  ~ unrecognised text /\ text <> [] /\ b <> [].
Proof.
  intros E. repeat split.
  - intros H. rewrite (detect_unrecognised text H) in E. discriminate.
  - intros ->. discriminate E.
  - intros ->.
    destruct (detect_tuple5_invariants _ _ _ _ _ _ E) as (Hb & _).
    symmetry in Hb. apply tally_empty_iff in Hb.
    rewrite (detect_unrecognised text Hb) in E. discriminate.
Qed.

End SuggestFacts.

Section SelectorShape.
Import PyDict.
Context {image : Type}.
Variables (tess : @engine image) (img : image).

(** Every run with an engine, by cases on the first pass, the detection and
    the second pass. *)
Lemma ocr_cases :
  (exists e, tess img None = Raise e
     /\ ocr_image_with_smart_lang (Some tess) img
        = mkRun [None]
            (Return (OcrFail (lit "Tesseract initial OCR failed: "
                              ++ exn_str e))))
  \/ (exists raw0, tess img None = Return raw0
        /\ unrecognised (strip raw0)
        /\ ocr_image_with_smart_lang (Some tess) img
           = mkRun [None] (Raise unpack_error))
  \/ (exists raw0 c t b q, tess img None = Return raw0
        /\ detect_script_with_confidence (strip raw0) = Tuple5 ISO c t b q
        /\ ocr_image_with_smart_lang (Some tess) img
           = mkRun [None] (Return (OcrOk (strip raw0) eng ISO b)))
  \/ (exists raw0 s c t b q lang, tess img None = Return raw0
        /\ detect_script_with_confidence (strip raw0) = Tuple5 s c t b q
        /\ s <> ISO
        /\ lang = get TESS_LANG_SUGGEST s eng
        /\ lang <> eng
        /\ ((exists e, tess img (Some lang) = Raise e
               /\ ocr_image_with_smart_lang (Some tess) img
                  = mkRun [None; Some lang]
                      (Return (OcrOk (strip raw0) eng s b)))
            \/ (exists raw1, tess img (Some lang) = Return raw1
                  /\ ocr_image_with_smart_lang (Some tess) img
                     = mkRun [None; Some lang]
                         (Return
                            (if len (strip raw0) <? len (strip raw1)
                             then OcrOk (strip raw1) lang s b
                             else OcrOk (strip raw0) eng s b))))).
Proof.
  destruct (tess img None) as [raw0|e] eqn:H0.
  2:{ left. exists e. split; [reflexivity|]. now apply ocr_first_pass_raises. }
  right.
  destruct (detect_script_with_confidence (strip raw0))
    as [s c t b|s c t b q] eqn:Hd.
  { left. exists raw0. split; [reflexivity|]. split.
    - now apply detect_tuple4_inv in Hd.
    - now apply (ocr_unpack_raises tess img raw0 s c t b). }
  right.
  destruct (winner_in_catalog _ _ _ _ _ _ Hd) as (p & Hp & _).
  pose proof (suggest_default_iff p s Hp) as Hs.
  destruct (str_eqb (get TESS_LANG_SUGGEST s eng) eng) eqn:El.
  { apply str_eqb_eq in El. left.
    assert (s = ISO) as -> by tauto.
    exists raw0, c, t, b, q. split; [reflexivity|]. split; [exact Hd|].
    now apply (ocr_no_retry tess img raw0 ISO c t b q). }
  apply str_eqb_neq in El. right.
  exists raw0, s, c, t, b, q, (get TESS_LANG_SUGGEST s eng).
  split; [reflexivity|]. split; [exact Hd|].
  split; [tauto|]. split; [reflexivity|]. split; [exact El|].
  destruct (tess img (Some (get TESS_LANG_SUGGEST s eng)))
    as [raw1|e] eqn:H1.
  - right. exists raw1. split; [reflexivity|].
    rewrite (ocr_retry_returns tess img _ _ _ _ _ _ _ H0 Hd El H1).
    cbv zeta. rewrite select_after_strip. unfold select_by_length.
    now destruct (len (strip raw0) <? len (strip raw1)).
  - left. exists e. split; [reflexivity|].
    now apply (ocr_retry_raises tess img raw0 s c t b q e).
Qed.

End SelectorShape.

(** X10. The engine is called at most twice: never without a backend,
    first without a language, and a second time only with a language of
    the suggestion table other than the default ["eng"]. *)
Theorem X10_at_most_two_engine_calls {image : Type}
  (pytesseract : option (@engine image)) (img : image) :
  let calls := trace (ocr_image_with_smart_lang pytesseract img) in
  (pytesseract = None -> calls = [])
  /\ (pytesseract <> None ->
        calls = [None]
        \/ exists lang, calls = [None; Some lang]
                        /\ lang <> eng
                        /\ In lang (PyDict.values TESS_LANG_SUGGEST)).
Proof.
  cbv zeta. destruct pytesseract as [tess|].
  2:{ split; [reflexivity | congruence]. }
  split; [discriminate|]. intros _.
  destruct (ocr_cases tess img)
    as [(e & _ & ->)|[(raw0 & _ & _ & ->)|[(raw0 & c & t & b & q & _ & _ & ->)
       |(raw0 & s & c & t & b & q & lang & _ & _ & _ & Hl & Hne & Hrun)]]];
    try (now left).
  right. exists lang. split.
  - destruct Hrun as [(e & _ & ->)|(raw1 & _ & ->)]; reflexivity.
  - split; [exact Hne|]. subst lang.
    destruct (get_in_values TESS_LANG_SUGGEST s eng); tauto.
Qed.

Lemma X10_witness_two_calls :
  Some ka_then_tamil <> None
  /\ (trace (ocr_image_with_smart_lang (Some ka_then_tamil) tt) = [None]
      \/ exists lang,
           trace (ocr_image_with_smart_lang (Some ka_then_tamil) tt)
           = [None; Some lang]
           /\ lang <> eng
           /\ In lang (PyDict.values TESS_LANG_SUGGEST)).
Proof.
  split; [discriminate|].
  apply (proj2 (X10_at_most_two_engine_calls (Some ka_then_tamil) tt)).
  discriminate.
Defined.

(** X11. After a successful first pass a second pass is attempted exactly
    when the trimmed first text has a catalog character and its winning
    script is not ["ISO"]. *)
Theorem X11_retry_iff_native_script {image : Type}
  (tess : @engine image) (img : image) (raw0 : str) :
  tess img None = Return raw0 ->
  ((exists lang,
      In (Some lang) (trace (ocr_image_with_smart_lang (Some tess) img)))
   <-> (~ unrecognised (strip raw0)
        /\ script_of (detect_script_with_confidence (strip raw0)) <> ISO)).
Proof.
  intros H0.
  destruct (ocr_cases tess img)
    as [(e & He & _)|[(r & Hr & Hu & ->)|[(r & c & t & b & q & Hr & Hd & ->)
       |(r & s & c & t & b & q & lang & Hr & Hd & Hs & Hl & Hne & Hrun)]]].
  - congruence.
  - assert (r = raw0) as -> by congruence. split.
    + intros (lang & [H|[]]); discriminate H.
    + tauto.
  - assert (r = raw0) as -> by congruence. rewrite Hd. cbn [script_of]. split.
    + intros (lang & [H|[]]); discriminate H.
    + tauto.
  - assert (r = raw0) as -> by congruence. rewrite Hd. cbn [script_of]. split.
    + intros _. split; [|exact Hs].
      now apply (tuple5_recognised _ _ _ _ _ _ Hd).
    + intros _. exists lang.
      destruct Hrun as [(e & _ & ->)|(raw1 & _ & ->)]; simpl; auto.
Qed.

Lemma X11_witness_latin_page :
  latin_only tt None = Return (lit " hello ")
  /\ ((exists lang,
         In (Some lang)
            (trace (ocr_image_with_smart_lang (Some latin_only) tt)))
      <-> (~ unrecognised (strip (lit " hello "))
           /\ script_of (detect_script_with_confidence
                           (strip (lit " hello "))) <> ISO)).
Proof.
  split; [reflexivity|].
  apply (X11_retry_iff_native_script latin_only tt (lit " hello ")).
  reflexivity.
Defined.

(** X12. A success dict never holds less text than the first pass gave:
    its text is trimmed, not empty and at least as long as the trimmed
    first text; with ["eng"] it is the first text, with any other language
    it is the strictly longer trimmed second text. The detected script is
    a catalog script and its breakdown is not empty. *)
Theorem X12_success_keeps_the_longer_text {image : Type}
  (tess : @engine image) (img : image) (raw0 text used_lang detected : str)
  (breakdown : PyDict.dict Z) :
  tess img None = Return raw0 ->
  result (ocr_image_with_smart_lang (Some tess) img)
  = Return (OcrOk text used_lang detected breakdown) ->
  strip text = text
  /\ text <> []
  /\ len (strip raw0) <= len text
  /\ In detected (map snd UNICODE_RANGES)
  /\ breakdown <> []
  /\ ((used_lang = eng /\ text = strip raw0)
      \/ (used_lang <> eng
          /\ len (strip raw0) < len text
          /\ exists raw1, tess img (Some used_lang) = Return raw1
                          /\ text = strip raw1)).
Proof.
  intros H0 Hr.
  assert (forall s c t b q,
            detect_script_with_confidence (strip raw0) = Tuple5 s c t b q ->
            0 < len (strip raw0) /\ In s (map snd UNICODE_RANGES) /\ b <> [])
    as facts.
  { intros s c t b q Hd.
    destruct (tuple5_recognised _ _ _ _ _ _ Hd) as (_ & Hne & Hb).
    destruct (winner_in_catalog _ _ _ _ _ _ Hd) as (p & Hp & _).
    repeat split; auto.
    - pose proof (len_nonneg (strip raw0)).
      pose proof (len_zero (strip raw0)).
      destruct (Z.eq_dec (len (strip raw0)) 0); [tauto | lia].
    - apply in_map_iff. now exists (p, s). }
  assert (forall x : str, 0 < len x -> x <> []) as nonempty.
  { intros x Hx ->. unfold len in Hx. simpl in Hx. lia. }
  destruct (ocr_cases tess img)
    as [(e & He & _)|[(r & Hr0 & Hu & E)|[(r & c & t & b & q & Hr0 & Hd & E)
       |(r & s & c & t & b & q & lang & Hr0 & Hd & Hs & Hl & Hne & Hrun)]]].
  - congruence.
  - rewrite E in Hr. discriminate.
  - assert (r = raw0) as -> by congruence.
    rewrite E in Hr. injection Hr as <- <- <- <-.
    destruct (facts _ _ _ _ _ Hd) as (Hlen & Hin & Hb).
    repeat split; auto using strip_idem; try lia.
  - assert (r = raw0) as -> by congruence.
    destruct (facts _ _ _ _ _ Hd) as (Hlen & Hin & Hb).
    destruct Hrun as [(e & _ & E)|(raw1 & H1 & E)]; rewrite E in Hr.
    + injection Hr as <- <- <- <-.
      repeat split; auto using strip_idem; try lia.
    + destruct (len (strip raw0) <? len (strip raw1)) eqn:Elen;
        injection Hr as <- <- <- <-.
      * apply Z.ltb_lt in Elen.
        repeat split; auto using strip_idem; try lia.
        -- apply nonempty; lia.
        -- right. repeat split; auto. exists raw1. auto.
      * repeat split; auto using strip_idem; try lia.
Qed.

Lemma X12_witness_longer_second_text :
  ka_then_tamil tt None = Return ka
  /\ strip (va ++ va) = va ++ va
  /\ len (strip ka) <= len (va ++ va)
  /\ ((lit "hin" = eng /\ va ++ va = strip ka)
      \/ (lit "hin" <> eng
          /\ len (strip ka) < len (va ++ va)
          /\ exists raw1, ka_then_tamil tt (Some (lit "hin")) = Return raw1
                          /\ va ++ va = strip raw1)).
Proof.
  split; [reflexivity|].
  destruct (X12_success_keeps_the_longer_text ka_then_tamil tt ka (va ++ va)
              (lit "hin") (lit "Devanagari") [(lit "Devanagari", 1)]
              eq_refl eq_refl) as (H1 & _ & H3 & _ & _ & H6).
  auto.
Defined.

(** X13. An OCR response is only built for text with a catalog character:
    its text is not empty, its breakdown is not empty and sums to a
    positive total, and its confidence is above 0 and at most 1; the
    status is 200 and the engine calls are those of the selector. *)
Theorem X13_ocr_response_has_positive_confidence {image : Type}
  (pytesseract : option (@engine image)) (upload : option (outcome image))
  (calls : list (option str)) (status : Z)
  (text used_lang detected_script : str)
  (breakdown : PyDict.dict Z) (confidence : Q) :
  api_ocr pytesseract upload
  = mkRun calls
      (Return (Jsonify status
                 (OcrBody text used_lang detected_script breakdown
                    confidence))) ->
  status = 200
  /\ text <> []
  /\ ~ unrecognised text
  /\ breakdown <> []
  /\ 0 < PyDict.sum_values breakdown
  /\ (0 < confidence)%Q /\ (confidence <= 1)%Q
  /\ exists img, upload = Some (Return img)
                 /\ calls = trace (ocr_image_with_smart_lang pytesseract img).
Proof.
  unfold api_ocr.
  destruct upload as [[img|e]|]; destruct pytesseract as [tess|];
    try (unfold ret; intros [= ]; fail).
  unfold bind.
  destruct (result (ocr_image_with_smart_lang (Some tess) img))
    as [[txt used ds b0|err]|e] eqn:Hr; try (unfold ret; intros [= ]; fail).
  unfold lift, ret. cbn [result trace].
  destruct (detect_script_with_confidence txt) as [s c t b|s c t b q] eqn:Hd;
    cbn [unpack5]; intros [= <- <- <- <- <- <- <-].
  destruct (tuple5_recognised _ _ _ _ _ _ Hd) as (Hu & Hne & Hb).
  destruct (detect_tuple5_invariants _ _ _ _ _ _ Hd)
    as (_ & Ht & _ & Hc & _ & _ & Hq0 & Hq1).
  repeat split; auto; try lia.
  exists img. split; [reflexivity|]. now rewrite !app_nil_r.
Qed.

Lemma X13_witness_tamil_response :
  200 = 200
  /\ va ++ va <> []
  /\ ~ unrecognised (va ++ va)
  /\ [(lit "Tamil", 2)] <> []
  /\ 0 < PyDict.sum_values [(lit "Tamil", 2)]
  /\ (0 < 2 # 2)%Q /\ (2 # 2 <= 1)%Q
  /\ exists img : unit,
       Some (Return tt) = Some (Return img)
       /\ [None; Some (lit "hin")]
          = trace (ocr_image_with_smart_lang (Some ka_then_tamil) img).
Proof.
  apply (X13_ocr_response_has_positive_confidence
           (Some ka_then_tamil) (Some (Return tt))
           [None; Some (lit "hin")] 200 (va ++ va) (lit "hin")
           (lit "Devanagari")).
  reflexivity.
Defined.


(* ================================================================== *)
(** * Further properties of the resolver and of [api_transliterate] *)
(* ================================================================== *)

(** X14. With an explicit hint, or with the ["ISO"] hint and text that has
    a catalog character, the backend is called once, with the target and
    the text as given and with the resolved source: the detected script
    under the ["ISO"] hint, the hint itself otherwise. The source differs
    from the hint exactly when the hint is ["ISO"] and the detected script
    is not; the backend's outcome, exception included, is passed on. *)
Theorem X14_resolved_source_reaches_backend (process : backend)
  (src tgt text : str) :
  src <> ISO \/ ~ unrecognised text ->
  let resolved :=
    if str_eqb src ISO
    then script_of (detect_script_with_confidence text)
    else src in
  perform_transliteration (Some process) src tgt text
  = mkRun [(resolved, tgt, text)] (process resolved tgt text)
  /\ (resolved <> src
      <-> src = ISO /\ script_of (detect_script_with_confidence text) <> ISO).
Proof.
  intros H. cbv zeta.
  destruct (str_eqb src ISO) eqn:E.
  - apply str_eqb_eq in E. subst src.
    destruct H as [H|H]; [congruence|].
    destruct (detect_script_with_confidence text) as [s c t b|s c t b q] eqn:Hd.
    + apply detect_tuple4_inv in Hd. tauto.
    + cbn [script_of]. split.
      * now apply (resolve_iso_hint process tgt text s c t b q).
      * tauto.
  - apply str_eqb_neq in E. split.
    + now apply resolve_explicit_hint.
    + tauto.
Qed.

Lemma X14_witness_tamil_under_iso_hint :
  (ISO <> ISO \/ ~ unrecognised (va ++ va))
  /\ perform_transliteration (Some echo_source) ISO (lit "Tamil") (va ++ va)
     = mkRun [(lit "Tamil", lit "Tamil", va ++ va)] (Return (lit "Tamil")).
Proof.
  assert (ISO <> ISO \/ ~ unrecognised (va ++ va)) as H
    by (right; intros H; apply unrecognisedb_spec in H; discriminate H).
  split; [exact H|].
  apply (proj1 (X14_resolved_source_reaches_backend echo_source ISO
                  (lit "Tamil") (va ++ va) H)).
Defined.

Section HandlerFacts.
Import PyDict.
Variables (process : backend) (data : dict str).

(** The handler with a backend and a non-empty text, by what
    [perform_transliteration] did. *)
Lemma api_transliterate_run :
  get data (lit "text") [] <> [] ->
  api_transliterate (Some process) data
  = let r := perform_transliteration (Some process)
               (get data (lit "src") []) (get data (lit "tgt") [])
               (get data (lit "text") []) in
    mkRun (trace r)
      (Return match result r with
              | Return out => Reply 200 (JsonOk out)
              | Raise e => Reply 500 (JsonError (exn_str e))
              end).
Proof.
  intros Hne. unfold api_transliterate.
  destruct (get data (lit "text") []) as [|c t] eqn:E; [congruence|].
  cbn [truthy negb].
  unfold bind, attempt, ret. cbn [trace result]. cbv zeta.
  destruct (result (perform_transliteration (Some process) _ _ (c :: t)));
    cbn [trace result]; now rewrite app_nil_r.
Qed.

(** What [perform_transliteration] can do with a backend: raise on the
    unpacking without a call, or make one call and pass its outcome on. *)
Lemma resolve_cases (src tgt text : str) :
  (src = ISO /\ unrecognised text
   /\ perform_transliteration (Some process) src tgt text
      = mkRun [] (Raise unpack_error))
  \/ (exists resolved,
        resolved
        = (if str_eqb src ISO
           then script_of (detect_script_with_confidence text)
           else src)
        /\ perform_transliteration (Some process) src tgt text
           = mkRun [(resolved, tgt, text)] (process resolved tgt text)).
Proof.
  destruct (str_eqb src ISO) eqn:E.
  - apply str_eqb_eq in E.
    destruct (detect_script_with_confidence text) as [s c t b|s c t b q] eqn:Hd.
    + left. apply detect_tuple4_inv in Hd as (Hu & _).
      repeat split; auto. rewrite E.
      now apply resolve_iso_hint_unrecognised.
    + right. exists s. split; [reflexivity|]. rewrite E.
      now apply (resolve_iso_hint process tgt text s c t b q).
  - apply str_eqb_neq in E. right. exists src. split; [reflexivity|].
    now apply resolve_explicit_hint.
Qed.

End HandlerFacts.


(** X16. A 200 answer is always the backend's output for the resolved
    source, the given target and the given non-empty text, after exactly
    that one call. *)
Theorem X16_transliterate_200_is_backend_output
  (aksha_process : option backend) (data : PyDict.dict str)
  (calls : list (str * str * str)) (out : str) :
  api_transliterate aksha_process data
  = mkRun calls (Return (Reply 200 (JsonOk out))) ->
  let text := PyDict.get data (lit "text") [] in
  let src := PyDict.get data (lit "src") [] in
  let tgt := PyDict.get data (lit "tgt") [] in
  let resolved :=
    if str_eqb src ISO
    then script_of (detect_script_with_confidence text)
    else src in
  text <> []
  /\ calls = [(resolved, tgt, text)]
  /\ exists process, aksha_process = Some process
                     /\ process resolved tgt text = Return out.
Proof.
  cbv zeta.
  destruct (PyDict.get data (lit "text") []) as [|c t] eqn:Et.
  { unfold api_transliterate. rewrite Et. cbn [truthy negb].
    unfold ret. intros [= ]. }
  destruct aksha_process as [process|].
  2:{ unfold api_transliterate. rewrite Et. cbn [truthy negb].
      unfold ret. intros [= ]. }
  assert (PyDict.get data (lit "text") [] <> []) as Hne
    by (rewrite Et; discriminate).
  rewrite (api_transliterate_run process data Hne). cbv zeta. rewrite Et.
  destruct (resolve_cases process (PyDict.get data (lit "src") [])
              (PyDict.get data (lit "tgt") []) (c :: t))
    as [(_ & _ & E)|(x & Hx & E)]; rewrite E; cbn [trace result].
  - intros [= ].
  - rewrite <- Hx.
    destruct (process x _ _) eqn:Ep; intros [= <- <-].
    split; [discriminate|]. split; [reflexivity|]. exists process. auto.
Qed.

Lemma X16_witness_tamil_request :
  PyDict.get request_tamil (lit "text") [] <> []
  /\ [(lit "Tamil", lit "Tamil", va ++ va)]
     = [(if str_eqb (PyDict.get request_tamil (lit "src") []) ISO
         then script_of (detect_script_with_confidence
                           (PyDict.get request_tamil (lit "text") []))
         else PyDict.get request_tamil (lit "src") [],
         PyDict.get request_tamil (lit "tgt") [],
         PyDict.get request_tamil (lit "text") [])].
Proof.
  destruct (X16_transliterate_200_is_backend_output (Some echo_source)
              request_tamil [(lit "Tamil", lit "Tamil", va ++ va)]
              (lit "Tamil") eq_refl) as (H1 & H2 & _).
  split; [exact H1 | exact H2].
Defined.

(** X17. With a backend, the ["ISO"] source and a non-empty text without
    any catalog character, the answer is status 500 with the unpacking
    message as error, and the backend is not called. *)
Theorem X17_transliterate_unrecognised_text_is_500 (process : backend)
  (data : PyDict.dict str) :
  PyDict.get data (lit "src") [] = ISO ->
  PyDict.get data (lit "text") [] <> [] ->
  unrecognised (PyDict.get data (lit "text") []) ->
  api_transliterate (Some process) data
  = mkRun []
      (Return (Reply 500
                 (JsonError
                    (lit "not enough values to unpack (expected 5, got 4)")))).
Proof.
  intros Hs Hne Hu.
  rewrite (api_transliterate_run process data Hne). cbv zeta.
  rewrite Hs, (resolve_iso_hint_unrecognised process _ _ Hu). reflexivity.
Qed.

Lemma X17_witness_digits_request :
  PyDict.get request_digits (lit "src") [] = ISO
  /\ PyDict.get request_digits (lit "text") [] <> []
  /\ unrecognised (PyDict.get request_digits (lit "text") [])
  /\ api_transliterate (Some echo_source) request_digits
     = mkRun []
         (Return (Reply 500
                    (JsonError
                       (lit "not enough values to unpack (expected 5, got 4)")))).
Proof.
  assert (unrecognised (PyDict.get request_digits (lit "text") [])) as H
    by (apply unrecognisedb_spec; reflexivity).
  split; [reflexivity|]. split; [discriminate|]. split; [exact H|].
  apply (X17_transliterate_unrecognised_text_is_500 echo_source
           request_digits); [reflexivity | discriminate | exact H].
Defined.


(* ================================================================== *)
(** * The phrasebook *)
(* ================================================================== *)

Section PhrasebookFacts.
Import PyDict.

Lemma subscript_readable (it : phrase) :
  readable it -> exists id, lookup it (lit "id") = Some id
                            /\ subscript it (lit "id") = Done id.
Proof.
  intros [Hid _]. unfold subscript.
  destruct (lookup it (lit "id")) as [id|]; [eauto | congruence].
Qed.

Lemma has_id_spec (pid : str) (it : phrase) :
  has_id pid it = true <-> lookup it (lit "id") = Some pid.
Proof.
  unfold has_id. destruct (lookup it (lit "id")) as [id|].
  - rewrite str_eqb_eq. split; congruence.
  - split; discriminate.
Qed.

(** On readable phrases the comprehension of the delete handler is a
    filter. *)
Lemma keep_others_filter (pb : list phrase) (pid : str) :
  Forall readable pb ->
  keep_others pb pid = Done (filter (fun it => negb (has_id pid it)) pb).
Proof.
  induction 1 as [|it pb Hit _ IH]; [reflexivity|].
  cbn [keep_others filter]. destruct (subscript_readable it Hit) as (id & Hl & ->).
  rewrite IH. unfold has_id. rewrite Hl. now destruct (str_eqb id pid).
Qed.

(** On readable phrases the loop of the get handler finds the first phrase
    with the id. *)
Lemma get_loop_find (pb : list phrase) (pid : str) :
  Forall readable pb ->
  get_loop pb pid
  = Done match find (has_id pid) pb with
         | Some it => Reply 200 (JsonOk it)
         | None => not_found
         end.
Proof.
  induction 1 as [|it pb Hit _ IH]; [reflexivity|].
  cbn [get_loop find]. destruct (subscript_readable it Hit) as (id & Hl & ->).
  unfold has_id at 1. rewrite Hl.
  destruct (str_eqb id pid); [reflexivity | exact IH].
Qed.

Lemma filter_same_length {A} (g : A -> bool) (l : list A) :
  len (filter g l) = len l <-> forall x, In x l -> g x = true.
Proof.
  unfold len. induction l as [|a l IH]; simpl; [tauto|].
  pose proof (filter_length_le g l) as Hle.
  destruct (g a) eqn:E; simpl.
  - split.
    + intros H x [<-|Hx]; [exact E|]. apply IH; [lia | exact Hx].
    + intros H.
      assert (Z.of_nat (List.length (filter g l)) = Z.of_nat (List.length l));
        [apply IH; auto | lia].
  - split; [lia|]. intros H. rewrite H in E by now left. discriminate.
Qed.





End PhrasebookFacts.






(** X21. On a file of readable phrases a get answers 404 exactly when no
    phrase has the id; otherwise it answers 200 with a phrase of the file
    that has the id, the first such phrase in file order. *)
Theorem X21_get_finds_first_match (pid : str) (file : phrasebook_file) :
  Forall readable (load_phrasebooks file) ->
  (api_phrasebook_get pid file = Done not_found
   <-> forall it, In it (load_phrasebooks file) ->
                  lookup it (lit "id") <> Some pid)
  /\ (forall it,
        api_phrasebook_get pid file = Done (Reply 200 (JsonOk it)) ->
        exists before after,
          load_phrasebooks file = before ++ it :: after
          /\ lookup it (lit "id") = Some pid
          /\ forall x, In x before -> lookup x (lit "id") <> Some pid).
Proof.
  intros Hr. unfold api_phrasebook_get. rewrite (get_loop_find _ pid Hr).
  clear Hr. set (pb := load_phrasebooks file). clearbody pb. split.
  - split.
    + destruct (find (has_id pid) pb) as [it|] eqn:E; [discriminate|].
      intros _ it Hin Hid. apply has_id_spec in Hid.
      pose proof (find_none _ _ E it Hin). congruence.
    + intros H. destruct (find (has_id pid) pb) as [it|] eqn:E; [|reflexivity].
      apply find_some in E as [Hin Hid]. apply has_id_spec in Hid.
      now apply H in Hin.
  - intros it. destruct (find (has_id pid) pb) as [x|] eqn:E; [|discriminate].
    intros [= ->]. induction pb as [|a pb IH]; [discriminate|].
    cbn [find] in E. destruct (has_id pid a) eqn:Ea.
    + injection E as ->. exists [], pb. repeat split.
      * now apply has_id_spec.
      * intros x [].
    + destruct (IH E) as (before & after & -> & Hid & Hb).
      exists (a :: before), after. repeat split; auto.
      intros x [<-|Hx]; [|now apply Hb].
      intros Hx. apply has_id_spec in Hx. congruence.
Qed.

Lemma X21_witness_shelf :
  Forall readable (load_phrasebooks shelf)
  /\ api_phrasebook_get (lit "p1") shelf = Done (Reply 200 (JsonOk old_phrase))
  /\ exists before after,
       load_phrasebooks shelf = before ++ old_phrase :: after
       /\ lookup old_phrase (lit "id") = Some (lit "p1").
Proof.
  assert (Forall readable (load_phrasebooks shelf)) as H
    by (repeat constructor; discriminate).
  split; [exact H|]. split; [reflexivity|].
  destruct (proj2 (X21_get_finds_first_match (lit "p1") shelf H) old_phrase
              eq_refl) as (before & after & E & Hid & _).
  exists before, after. auto.
Defined.

(** X22. On a file of readable phrases a delete answers 404 and leaves the
    file untouched exactly when no phrase has the id. *)
Theorem X22_delete_unknown_id_is_404 (pid : str) (file : phrasebook_file) :
  Forall readable (load_phrasebooks file) ->
  (api_phrasebook_delete pid file = (file, Done not_found)
   <-> forall it, In it (load_phrasebooks file) ->
                  lookup it (lit "id") <> Some pid).
Proof.
  intros Hr. unfold api_phrasebook_delete.
  rewrite (keep_others_filter _ pid Hr).
  destruct (len (filter _ _) =? len (load_phrasebooks file)) eqn:E.
  - apply Z.eqb_eq in E. split; [|reflexivity].
    intros _ it Hin Hid. apply has_id_spec in Hid.
    pose proof (proj1 (filter_same_length _ _) E it Hin) as H.
    cbv beta in H. rewrite Hid in H. discriminate.
  - apply Z.eqb_neq in E. split; [intros [= ]|].
    intros H. exfalso. apply E. apply filter_same_length.
    intros it Hin. destruct (has_id pid it) eqn:Eid; [|reflexivity].
    apply has_id_spec in Eid. now apply H in Hin.
Qed.

Lemma X22_witness_shelf :
  Forall readable (load_phrasebooks shelf)
  /\ api_phrasebook_delete (lit "p9") shelf = (shelf, Done not_found).
Proof.
  assert (Forall readable (load_phrasebooks shelf)) as H
    by (repeat constructor; discriminate).
  split; [exact H|].
  apply (proj2 (X22_delete_unknown_id_is_404 (lit "p9") shelf H)).
  intros it [<-|[]]. discriminate.
Defined.









(** X27. One stored object without an ["id"] makes every delete raise
    [KeyError] on ["id"], whatever the id asked for, and the file is not
    written. *)
Theorem X27_delete_raises_on_phrase_without_id (pid : str)
  (file : phrasebook_file) (it : phrase) :
  In it (load_phrasebooks file) ->
  lookup it (lit "id") = None ->
  api_phrasebook_delete pid file = (file, Failed (KeyError (lit "id"))).
Proof.
  intros Hin Hid. unfold api_phrasebook_delete.
  assert (keep_others (load_phrasebooks file) pid
          = Failed (KeyError (lit "id"))) as ->; [|reflexivity].
  induction (load_phrasebooks file) as [|a pb IH]; [destruct Hin|].
  cbn [keep_others]. unfold subscript at 1.
  destruct Hin as [->|Hin].
  - now rewrite Hid.
  - destruct (lookup a (lit "id")); [|reflexivity]. now rewrite (IH Hin).
Qed.

Lemma X27_witness_nameless_phrase :
  In [(lit "text", ka)] (load_phrasebooks (Some [old_phrase; [(lit "text", ka)]]))
  /\ api_phrasebook_delete (lit "p1") (Some [old_phrase; [(lit "text", ka)]])
     = (Some [old_phrase; [(lit "text", ka)]], Failed (KeyError (lit "id"))).
Proof.
  assert (In [(lit "text", ka)]
            (load_phrasebooks (Some [old_phrase; [(lit "text", ka)]]))) as H
    by (right; left; reflexivity).
  split; [exact H|].
  apply (X27_delete_raises_on_phrase_without_id (lit "p1") _ _ H).
  reflexivity.
Defined.
